(** * Session and cart state of the health portal front end

    A shallow embedding of the client-side state handling of the portal:
    the authentication context ([frontend/lib/auth-context.tsx]), the
    request helper of [frontend/lib/api.ts], the order page (cart, total,
    checkout) and the notification loader of the consultations page.

    React state is modelled by explicit state passing: every handler is a
    function from the component state before the call to the state after
    it.  Identifiers, quantities and counts, which the program only
    compares and increments, are integers ([Z]); prices and the total
    computed from them are binary64 floating-point numbers ([float]),
    as every JavaScript number is.  Strings are [string], [localStorage]
    is a finite map from keys to strings, and a nullable value is an
    [option]. *)

(** Beside those four components the development covers their callers
    and neighbours: the login and registration forms, the redirects of the
    pages, the prescriptions page, the tabs and notification actions of
    the consultations page and the health chat.  What the network does
    with a request is an argument of the handler that makes it. *)

From Stdlib Require Import ZArith QArith Ascii String List Lia.
From Stdlib Require Import Floats.
From stdpp Require Import base option strings list gmap pretty.

Local Open Scope Z_scope.
Local Open Scope string_scope.
Local Open Scope list_scope.

(** A decimal literal of a number stands for the nearest binary64 value,
    as it does in JavaScript source and in [JSON.parse]. *)
Set Warnings "-inexact-float".

(** ** JavaScript basics *)

Module JS.

(** Truthiness of a string: only the empty string is falsy. *)
Definition truthy (s : string) : bool :=
  match s with
  | EmptyString => false
  | String _ _ => true
  end.

(** Truthiness of [string | null]. *)
Definition truthy_opt (o : option string) : bool :=
  match o with
  | Some s => truthy s
  | None => false
  end.

(** [a || b] on strings: the first operand when it is truthy. *)
Definition or_else (a : option string) (b : string) : string :=
  match a with
  | Some s => if truthy s then s else b
  | None => b
  end.

(** Result of [JSON.parse]: a value, or a thrown [SyntaxError]. *)
Inductive ParseResult (A : Type) : Type :=
  | SyntaxError
  | Parsed (a : A).
Arguments SyntaxError {A}.
Arguments Parsed {A} a.

(** How a block of statements ends: normally, or by an exception that
    leaves the block; either way with the state reached so far. *)
Inductive Completion (S : Type) : Type :=
  | Normal (s : S)
  | Throw (error : string) (s : S).
Arguments Normal {S} s.
Arguments Throw {S} error s.

Definition state_of {S : Type} (c : Completion S) : S :=
  match c with
  | Normal s => s
  | Throw _ s => s
  end.

Definition threw {S : Type} (c : Completion S) : bool :=
  match c with
  | Normal _ => false
  | Throw _ _ => true
  end.

(** Toast notifications ([sonner]). *)
Inductive ToastKind := ToastSuccess | ToastError | ToastInfo.

Record Toast := mkToast { kind : ToastKind; text : string }.

End JS.

(** ** Authentication context *)

Module Auth.
Import JS.

(** [type UserType = 'patient' | 'doctor' | null].  The restore effect
    casts whatever string is stored, so the run-time value is any string
    or null. *)
Definition UserType : Type := option string.

Record User := mkUser {
  id : string;
  name : string;
  email : string;
  type : UserType;
  specialization : option string;
  phone : option string
}.

Record DemoPatient := mkDemoPatient {
  p_id : string;
  p_name : string;
  p_email : string;
  p_password : string;
  p_phone : string
}.

Record DemoDoctor := mkDemoDoctor {
  d_id : string;
  d_name : string;
  d_email : string;
  d_password : string;
  d_specialization : string
}.

Definition DEMO_PATIENTS : list DemoPatient :=
  [ mkDemoPatient "1" "John Doe" "patient@demo.com" "patient123" "+91 98765 43210";
    mkDemoPatient "2" "Sarah Smith" "sarah@demo.com" "demo123" "+91 98765 43211" ].

Definition DEMO_DOCTORS : list DemoDoctor :=
  [ mkDemoDoctor "1" "Dr. Ramesh Kumar" "doctor@demo.com" "doctor123" "General Physician";
    mkDemoDoctor "2" "Dr. Priya Sharma" "drpriya@demo.com" "demo123" "Dermatologist" ].

(** The browser's JSON codec, as far as the context uses it:
    [JSON.parse] on a stored string (typed [User | null] by the state it
    is assigned to) and [JSON.stringify] on a [User]. *)
Class JSON := {
  JSON_parse : string -> ParseResult (option User);
  JSON_stringify : User -> string
}.

(** State of [AuthProvider] together with the browser's [localStorage]. *)
Record AuthState := mkAuthState {
  user : option User;
  userType : UserType;
  isLoading : bool;
  localStorage : gmap string string
}.

(** State on first render: [useState(null)], [useState(null)],
    [useState(true)]. *)
Definition initial (storage : gmap string string) : AuthState :=
  mkAuthState None None true storage.

(** [isAuthenticated: !!user]. *)
Definition isAuthenticated (st : AuthState) : bool :=
  match user st with
  | Some _ => true
  | None => false
  end.

Definition setUser (u : option User) (st : AuthState) : AuthState :=
  mkAuthState u (userType st) (isLoading st) (localStorage st).

Definition setUserType (t : UserType) (st : AuthState) : AuthState :=
  mkAuthState (user st) t (isLoading st) (localStorage st).

Definition setIsLoading (b : bool) (st : AuthState) : AuthState :=
  mkAuthState (user st) (userType st) b (localStorage st).

Definition getItem (key : string) (st : AuthState) : option string :=
  localStorage st !! key.

Definition setItem (key value : string) (st : AuthState) : AuthState :=
  mkAuthState (user st) (userType st) (isLoading st)
              (<[key := value]> (localStorage st)).

Definition removeItem (key : string) (st : AuthState) : AuthState :=
  mkAuthState (user st) (userType st) (isLoading st)
              (delete key (localStorage st)).

(** [type === s] for a nullable string. *)
Definition type_is (s : string) (t : UserType) : bool :=
  match t with
  | Some s' => String.eqb s' s
  | None => false
  end.

Section WithJSON.
Context `{JSON}.

(** The mount effect of [AuthProvider]: restore a saved session. *)
Definition restore (st : AuthState) : Completion AuthState :=
  let savedUser := getItem "user" st in
  let savedType := getItem "userType" st in
  match savedUser, savedType with
  | Some su, Some sty =>
      if truthy su && truthy sty then
        match JSON_parse su with
        | SyntaxError => Throw "SyntaxError" st
        | Parsed u =>
            Normal (setIsLoading false (setUserType (Some sty) (setUser u st)))
        end
      else Normal (setIsLoading false st)
  | _, _ => Normal (setIsLoading false st)
  end.

(** [login(email, password, type)]: the returned boolean and the state
    after the call. *)
Definition login (email password : string) (type : UserType) (st : AuthState)
  : bool * AuthState :=
  if type_is "patient" type then
    match find (fun p => String.eqb (p_email p) email
                         && String.eqb (p_password p) password) DEMO_PATIENTS with
    | Some patient =>
        let userData :=
          mkUser (p_id patient) (p_name patient) (p_email patient)
                 (Some "patient") None (Some (p_phone patient)) in
        (true,
         setItem "userType" "patient"
           (setItem "user" (JSON_stringify userData)
              (setUserType (Some "patient") (setUser (Some userData) st))))
    | None => (false, st)
    end
  else if type_is "doctor" type then
    match find (fun d => String.eqb (d_email d) email
                         && String.eqb (d_password d) password) DEMO_DOCTORS with
    | Some doctor =>
        let userData :=
          mkUser (d_id doctor) (d_name doctor) (d_email doctor)
                 (Some "doctor") (Some (d_specialization doctor)) None in
        (true,
         setItem "userType" "doctor"
           (setItem "user" (JSON_stringify userData)
              (setUserType (Some "doctor") (setUser (Some userData) st))))
    | None => (false, st)
    end
  else (false, st).

End WithJSON.

(** [logout()]. *)
Definition logout (st : AuthState) : AuthState :=
  removeItem "userType" (removeItem "user" (setUserType None (setUser None st))).

End Auth.

(** ** Request helper of the API client *)

Module Api.
Import JS.

Module Notification.
Record t := mk {
  _id : string;
  userId : string;
  type : string;
  title : string;
  message : string;
  read : bool;
  createdAt : string;
  consultationId : option Z
}.
End Notification.

Module Consultation.
Record t := mk {
  id : Z;
  orderId : string;
  userId : string;
  status : string;
  symptoms : string;
  createdAt : string;
  diagnosis : option string;
  medicines : option (list string);
  dosageInstructions : option string;
  notes : option string;
  updatedAt : option string
}.
End Consultation.

(** A decoded JSON response body, with the fields the pages read.  A
    field that is absent from the body is [None]; [success] is the
    truthiness of [body.success]. *)
Record Body := mkBody {
  success : bool;
  error : option string;
  notifications : option (list Notification.t);
  unreadCount : option Z;
  consultations : option (list Consultation.t)
}.

Inductive Exception :=
  | TypeError (message : string)
  | Error (message : string)
  | JsonSyntaxError.

(** What [fetch] does with a request: the promise rejects, or it yields a
    response with its [ok] flag, status code and body ([None] when the
    body is not JSON, so that [response.json()] rejects). *)
Inductive FetchResult :=
  | Rejected (e : Exception)
  | Response (ok : bool) (status : Z) (json : option Body).

(** Outcome of awaiting an API call. *)
Inductive ApiResult :=
  | Resolved (body : Body)
  | Failed (e : Exception).

(** The [catch] block of [apiRequest]. *)
Definition rethrow (e : Exception) : Exception :=
  match e with
  | TypeError message =>
      if String.eqb message "Failed to fetch"
      then Error "Unable to connect to the server. Please make sure the backend is running on http://localhost:5000"
      else e
  | _ => e
  end.

(** [apiRequest(url, options)], given what [fetch] does. *)
Definition apiRequest (r : FetchResult) : ApiResult :=
  match r with
  | Rejected e => Failed (rethrow e)
  | Response ok status json =>
      if negb ok then
        let errorData :=
          match json with
          | Some b => b
          | None => mkBody false (Some "Request failed") None None None
          end in
        Failed (rethrow (Error (or_else (error errorData)
                                  ("HTTP error! status: " +:+ pretty status))))
      else
        match json with
        | Some b => Resolved b
        | None => Failed JsonSyntaxError
        end
  end.

(** The unwrapped calls ([api.createOrder] and others):
    [const response = await fetch(...); return response.json()]. *)
Definition fetchJson (r : FetchResult) : ApiResult :=
  match r with
  | Rejected e => Failed e
  | Response _ _ (Some b) => Resolved b
  | Response _ _ None => Failed JsonSyntaxError
  end.

Definition createOrder (r : FetchResult) : ApiResult := fetchJson r.

Definition getNotifications (r : FetchResult) : ApiResult := apiRequest r.

Definition getUserConsultations (r : FetchResult) : ApiResult := apiRequest r.

End Api.

(** ** Order page: cart, total and checkout *)

Module Order.
Import JS.

(** A medicine object as the page handles it: a search result, or a cart
    row.  [{...medicine, quantity: 1}] overwrites whatever [quantity] a
    search result carries.  The price is the number the server sent,
    decimal places included. *)
Record Medicine := mkMedicine {
  id : Z;
  name : string;
  price : float;
  quantity : Z
}.

(** The number that holds the integer [z]: [z] itself up to 2^53 in
    magnitude, the nearest binary64 value beyond. *)
Definition ofInteger (z : Z) : float :=
  SF2Prim (binary_normalize prec emax z 0 false).

Definition withQuantity (m : Medicine) (q : Z) : Medicine :=
  mkMedicine (id m) (name m) (price m) q.

(** [JSON.parse(decodeURIComponent(addMedicineParam))]. *)
Class ParamCodec := {
  parseMedicine : string -> ParseResult Medicine
}.

Record OrderPage := mkOrderPage {
  cart : list Medicine;
  address : string;
  phone : string;
  showDialog : bool;
  hasAddedMedicine : bool;
  toasts : list Toast;
  navigations : list string;
  console : list string
}.

(** State on first render. *)
Definition initial : OrderPage :=
  mkOrderPage [] "" "" false false [] [] [].

Definition setCart (c : list Medicine) (st : OrderPage) : OrderPage :=
  mkOrderPage c (address st) (phone st) (showDialog st) (hasAddedMedicine st)
              (toasts st) (navigations st) (console st).

Definition setAddress (a : string) (st : OrderPage) : OrderPage :=
  mkOrderPage (cart st) a (phone st) (showDialog st) (hasAddedMedicine st)
              (toasts st) (navigations st) (console st).

Definition setPhone (p : string) (st : OrderPage) : OrderPage :=
  mkOrderPage (cart st) (address st) p (showDialog st) (hasAddedMedicine st)
              (toasts st) (navigations st) (console st).

Definition setShowDialog (b : bool) (st : OrderPage) : OrderPage :=
  mkOrderPage (cart st) (address st) (phone st) b (hasAddedMedicine st)
              (toasts st) (navigations st) (console st).

Definition setHasAddedMedicine (b : bool) (st : OrderPage) : OrderPage :=
  mkOrderPage (cart st) (address st) (phone st) (showDialog st) b
              (toasts st) (navigations st) (console st).

Definition toast (k : ToastKind) (msg : string) (st : OrderPage) : OrderPage :=
  mkOrderPage (cart st) (address st) (phone st) (showDialog st) (hasAddedMedicine st)
              (toasts st ++ [mkToast k msg]) (navigations st) (console st).

Definition navigate (path : string) (st : OrderPage) : OrderPage :=
  mkOrderPage (cart st) (address st) (phone st) (showDialog st) (hasAddedMedicine st)
              (toasts st) (navigations st ++ [path]) (console st).

Definition console_error (msg : string) (st : OrderPage) : OrderPage :=
  mkOrderPage (cart st) (address st) (phone st) (showDialog st) (hasAddedMedicine st)
              (toasts st) (navigations st) (console st ++ [msg]).

(** [addToCart(medicine)]. *)
Definition addToCart (medicine : Medicine) (st : OrderPage) : OrderPage :=
  let existing := find (fun m => Z.eqb (id m) (id medicine)) (cart st) in
  let st' :=
    match existing with
    | Some _ =>
        setCart (map (fun m => if Z.eqb (id m) (id medicine)
                               then withQuantity m (quantity m + 1) else m)
                     (cart st)) st
    | None => setCart (cart st ++ [withQuantity medicine 1]) st
    end in
  toast ToastSuccess (name medicine +:+ " added") st'.

(** The functional update the URL-parameter effect passes to [setCart]. *)
Definition addMedicineUpdate (medicine : Medicine) (prevCart : list Medicine)
  : list Medicine :=
  let existing := find (fun m => Z.eqb (id m) (id medicine)) prevCart in
  match existing with
  | Some _ =>
      map (fun m => if Z.eqb (id m) (id medicine)
                    then withQuantity m (quantity m + 1) else m) prevCart
  | None => prevCart ++ [withQuantity medicine 1]
  end.

(** Body of the [try] block of that effect, once the parameter is parsed. *)
Definition addFromParam (medicine : Medicine) (st : OrderPage) : OrderPage :=
  navigate "/order"
    (toast ToastSuccess (name medicine +:+ " added to cart")
       (setCart (addMedicineUpdate medicine (cart st)) st)).

(** The effect that adds the medicine named by the [addMedicine] URL
    parameter; [user] is the signed-in user being non-null. *)
Definition addMedicineEffect `{ParamCodec}
    (addMedicineParam : option string) (user : bool) (st : OrderPage) : OrderPage :=
  match addMedicineParam with
  | Some param =>
      if truthy param && user && negb (hasAddedMedicine st) then
        let st1 := setHasAddedMedicine true st in
        match parseMedicine param with
        | Parsed medicine => addFromParam medicine st1
        | SyntaxError => console_error "Error parsing medicine data:" st1
        end
      else st
  | None => st
  end.

(** [updateQuantity(id, qty)]. *)
Definition updateQuantity (i : Z) (qty : Z) (st : OrderPage) : OrderPage :=
  if Z.ltb qty 1 then
    setCart (filter (fun m => id m <> i) (cart st)) st
  else
    setCart (map (fun m => if Z.eqb (id m) i then withQuantity m qty else m) (cart st)) st.

(** [const total = cart.reduce((sum, m) => sum + (m.price * m.quantity), 0)],
    evaluated on every render from the current cart.  Both operations
    are those of binary64 numbers: each product and each partial sum is
    rounded to the nearest number, ties to even. *)
Definition total (st : OrderPage) : float :=
  fold_left (fun sum m => (sum + price m * ofInteger (quantity m))%float)
            (cart st) 0%float.

(** [handlePlaceOrder()]. *)
Definition handlePlaceOrder (st : OrderPage) : OrderPage :=
  if Nat.eqb (length (cart st)) 0 then
    toast ToastError "Cart is empty" st
  else if negb (truthy (address st)) || negb (truthy (phone st)) then
    toast ToastError "Fill all fields" st
  else setShowDialog true st.

(** [confirmOrder()]; [user] says whether a user is signed in and [r] is
    what the network does with the order request. *)
Definition confirmOrder (user : bool) (r : Api.FetchResult) (st : OrderPage)
  : OrderPage :=
  if negb user then
    toast ToastError "User not logged in" st
  else
    match Api.createOrder r with
    | Api.Resolved response =>
        if Api.success response then
          navigate "/consultations"
            (setCart []
               (setShowDialog false
                  (toast ToastSuccess "Order placed successfully!" st)))
        else st
    | Api.Failed _ => toast ToastError "Order failed" st
    end.

(** *** Reading an error message

    Whether a message names a form field: the field name occurs in it,
    letter case aside. *)

Definition lowerChar (c : ascii) : ascii :=
  let n := nat_of_ascii c in
  if Nat.leb 65 n && Nat.leb n 90 then ascii_of_nat (n + 32) else c.

Fixpoint lower (s : string) : string :=
  match s with
  | EmptyString => EmptyString
  | String c rest => String (lowerChar c) (lower rest)
  end.

Fixpoint contains (needle hay : string) : bool :=
  String.prefix needle hay
  || match hay with
     | EmptyString => false
     | String _ rest => contains needle rest
     end.

Definition namesField (field msg : string) : bool :=
  contains (lower field) (lower msg).

End Order.

(** ** Consultations page: loading consultations and notifications *)

Module Consultations.
Import JS.

Record Page := mkPage {
  consultations : list Api.Consultation.t;
  isLoading : bool;
  notifications : list Api.Notification.t;
  unreadCount : Z;
  showNotifications : bool;
  toasts : list Toast;
  console : list string
}.

(** State on first render. *)
Definition initial : Page := mkPage [] true [] 0 false [] [].

Definition setConsultations (c : list Api.Consultation.t) (st : Page) : Page :=
  mkPage c (isLoading st) (notifications st) (unreadCount st)
         (showNotifications st) (toasts st) (console st).

Definition setIsLoading (b : bool) (st : Page) : Page :=
  mkPage (consultations st) b (notifications st) (unreadCount st)
         (showNotifications st) (toasts st) (console st).

Definition setNotifications (n : list Api.Notification.t) (st : Page) : Page :=
  mkPage (consultations st) (isLoading st) n (unreadCount st)
         (showNotifications st) (toasts st) (console st).

Definition setUnreadCount (n : Z) (st : Page) : Page :=
  mkPage (consultations st) (isLoading st) (notifications st) n
         (showNotifications st) (toasts st) (console st).

Definition toast (k : ToastKind) (msg : string) (st : Page) : Page :=
  mkPage (consultations st) (isLoading st) (notifications st) (unreadCount st)
         (showNotifications st) (toasts st ++ [mkToast k msg]) (console st).

Definition console_error (msg : string) (st : Page) : Page :=
  mkPage (consultations st) (isLoading st) (notifications st) (unreadCount st)
         (showNotifications st) (toasts st) (console st ++ [msg]).

(** [loadConsultations()]; [r] is what the network does with the request. *)
Definition loadConsultations (user : option Auth.User) (r : Api.FetchResult)
    (st : Page) : Page :=
  match user with
  | None => st
  | Some _ =>
      let st1 := setIsLoading true st in
      let st2 :=
        match Api.getUserConsultations r with
        | Api.Resolved response =>
            setConsultations (default [] (Api.consultations response)) st1
        | Api.Failed _ =>
            toast ToastError "Failed to load consultations"
              (console_error "Failed to load consultations:" st1)
        end in
      setIsLoading false st2
  end.

(** [loadNotifications()]; [r] is what the network does with the request. *)
Definition loadNotifications (user : option Auth.User) (r : Api.FetchResult)
    (st : Page) : Page :=
  match user with
  | None => st
  | Some _ =>
      match Api.getNotifications r with
      | Api.Resolved response =>
          setUnreadCount (default 0 (Api.unreadCount response))
            (setNotifications (default [] (Api.notifications response)) st)
      | Api.Failed _ => console_error "Failed to load notifications:" st
      end
  end.

(** One tick of the 30-second interval: [loadNotifications();
    loadConsultations()].  The two loaders write disjoint parts of the
    state, so the order in which their requests complete does not matter. *)
Definition pollTick (user : option Auth.User) (rn rc : Api.FetchResult)
    (st : Page) : Page :=
  loadConsultations user rc (loadNotifications user rn st).

End Consultations.

(** ** Sequences of cart operations *)

Module CartOps.
Import JS Order.

(** One call of the add operation: from the Add button of a search result,
    or from the URL-parameter effect. *)
Inductive AddCall :=
  | ViaButton (medicine : Medicine)
  | ViaUrlParam (medicine : Medicine).

Definition medicineOf (c : AddCall) : Medicine :=
  match c with
  | ViaButton m => m
  | ViaUrlParam m => m
  end.

Definition addItem (c : AddCall) (st : OrderPage) : OrderPage :=
  match c with
  | ViaButton m => addToCart m st
  | ViaUrlParam m => addFromParam m st
  end.

Inductive CartOp :=
  | AddItem (c : AddCall)
  | SetQuantity (i : Z) (qty : Z).

Definition applyOp (op : CartOp) (st : OrderPage) : OrderPage :=
  match op with
  | AddItem c => addItem c st
  | SetQuantity i qty => updateQuantity i qty st
  end.

Definition runAdds (calls : list AddCall) (st : OrderPage) : OrderPage :=
  fold_left (fun s c => addItem c s) calls st.

Definition run (ops : list CartOp) (st : OrderPage) : OrderPage :=
  fold_left (fun s op => applyOp op s) ops st.

(** How many of the calls add the medicine with identifier [i]. *)
Definition timesAdded (i : Z) (calls : list AddCall) : Z :=
  Z.of_nat (length (filter (fun c => id (medicineOf c) = i) calls)).

(** The row update both add paths apply when the medicine with identifier
    [i] is already in the cart. *)
Definition bump (i : Z) (m : Medicine) : Medicine :=
  if Z.eqb (id m) i then withQuantity m (quantity m + 1) else m.

(** What the specification says of a cart reached by the add calls
    [calls]: one row per distinct identifier added, each with the number
    of times it was added as its quantity. *)
Definition builtBy (calls : list AddCall) (items : list Medicine) : Prop :=
  NoDup (map id items)
  /\ (forall i, i ∈ map id items <-> exists c, c ∈ calls /\ id (medicineOf c) = i)
  /\ (forall m, m ∈ items -> quantity m = timesAdded (id m) calls).

(** No row with a quantity below one. *)
Definition positiveQuantities (items : list Medicine) : Prop :=
  Forall (fun m => 1 <= quantity m) items.

(** The value a number holds, as a rational; infinities and NaN hold
    none. *)
Definition exactValue (x : float) : option Q :=
  match Prim2SF x with
  | S754_zero _ => Some 0%Q
  | S754_finite negative m e =>
      Some ((if negative then -1 else 1) * inject_Z (Z.pos m) * 2 ^ e)%Q
  | S754_infinity _ => None
  | S754_nan => None
  end.

(** The sum the specification asks the total to equal: price times
    quantity, summed over the items, in exact arithmetic. *)
Fixpoint sumPriceQuantity (items : list Medicine) : option Q :=
  match items with
  | [] => Some 0%Q
  | m :: rest =>
      match exactValue (price m), sumPriceQuantity rest with
      | Some p, Some s => Some (p * inject_Z (quantity m) + s)%Q
      | _, _ => None
      end
  end.

(** Whether the number [x] is that sum. *)
Definition isSumPriceQuantity (x : float) (items : list Medicine) : bool :=
  match exactValue x, sumPriceQuantity items with
  | Some v, Some s => Qeq_bool v s
  | _, _ => false
  end.

(** The same sum in the numbers of the language, the rows taken in cart
    order: the sum of no row is 0, and the sum of the first [k + 1] rows
    is the sum of the first [k] plus the price of row [k] times its
    quantity, the product and the sum each rounded. *)
Fixpoint roundedSum (k : nat) (items : list Medicine) : float :=
  match k with
  | O => 0%float
  | S k' =>
      match items !! k' with
      | Some m => (roundedSum k' items + price m * ofInteger (quantity m))%float
      | None => roundedSum k' items
      end
  end.

End CartOps.

(** ** A reference JSON codec

    The theorems about the authentication context hold for every [JSON]
    instance.  To run the context on concrete storage contents this module
    provides one instance: it serialises a [User] the way [JSON.stringify]
    lays out the object that [login] builds, and it reads back flat
    objects whose values are string literals or [null] and that carry
    string-valued [id], [name] and [email] members.  It rejects every
    text that is not JSON; JSON texts outside that fragment (numbers,
    nested values, [\u] escapes, objects without those members) are
    rejected as well, which a browser would not do. *)

Module ReferenceCodec.
Import JS Auth.

Definition dquote : ascii := ascii_of_nat 34.
Definition backslash : ascii := ascii_of_nat 92.

Definition hexDigit (n : nat) : ascii :=
  ascii_of_nat (if Nat.ltb n 10 then 48 + n else 87 + n).

(** Characters of a string literal as [JSON.stringify] writes them. *)
Definition escapeChar (c : ascii) : string :=
  let n := nat_of_ascii c in
  if Ascii.eqb c dquote then String backslash (String dquote "")
  else if Ascii.eqb c backslash then String backslash (String backslash "")
  else if Nat.eqb n 8 then String backslash "b"
  else if Nat.eqb n 9 then String backslash "t"
  else if Nat.eqb n 10 then String backslash "n"
  else if Nat.eqb n 12 then String backslash "f"
  else if Nat.eqb n 13 then String backslash "r"
  else if Nat.ltb n 32 then
    String backslash
      ("u00" +:+ String (hexDigit (Nat.div n 16)) (String (hexDigit (Nat.modulo n 16)) ""))
  else String c "".

Fixpoint escape (s : string) : string :=
  match s with
  | EmptyString => ""
  | String c rest => escapeChar c +:+ escape rest
  end.

Definition quote (s : string) : string :=
  String dquote (escape s +:+ String dquote "").

Definition member (key : string) (value : string) : string :=
  quote key +:+ ":" +:+ value.

Definition optionalMember (key : string) (value : option string) : string :=
  match value with
  | Some v => "," +:+ member key (quote v)
  | None => ""
  end.

Definition stringify (u : User) : string :=
  "{" +:+ member "id" (quote (id u))
      +:+ "," +:+ member "name" (quote (name u))
      +:+ "," +:+ member "email" (quote (email u))
      +:+ "," +:+ member "type" (match type u with Some t => quote t | None => "null" end)
      +:+ optionalMember "specialization" (specialization u)
      +:+ optionalMember "phone" (phone u)
      +:+ "}".

Definition isWhitespace (c : ascii) : bool :=
  let n := nat_of_ascii c in
  Nat.eqb n 32 || Nat.eqb n 9 || Nat.eqb n 10 || Nat.eqb n 13.

Fixpoint skipWhitespace (s : string) : string :=
  match s with
  | String c rest => if isWhitespace c then skipWhitespace rest else s
  | EmptyString => s
  end.

Definition unescapeChar (c : ascii) : option ascii :=
  let n := nat_of_ascii c in
  if Ascii.eqb c dquote then Some dquote
  else if Ascii.eqb c backslash then Some backslash
  else if Nat.eqb n 47 then Some c
  else if Nat.eqb n 98 then Some (ascii_of_nat 8)
  else if Nat.eqb n 116 then Some (ascii_of_nat 9)
  else if Nat.eqb n 110 then Some (ascii_of_nat 10)
  else if Nat.eqb n 102 then Some (ascii_of_nat 12)
  else if Nat.eqb n 114 then Some (ascii_of_nat 13)
  else None.

(** The rest of a string literal after its opening quote: the decoded
    contents and the text after the closing quote. *)
Fixpoint stringBody (s : string) : option (string * string) :=
  match s with
  | EmptyString => None
  | String c rest =>
      if Ascii.eqb c dquote then Some ("", rest)
      else if Ascii.eqb c backslash then
        match rest with
        | String e rest' =>
            match unescapeChar e, stringBody rest' with
            | Some c', Some (body, after) => Some (String c' body, after)
            | _, _ => None
            end
        | EmptyString => None
        end
      else if Nat.ltb (nat_of_ascii c) 32 then None
      else
        match stringBody rest with
        | Some (body, after) => Some (String c body, after)
        | None => None
        end
  end.

(** The text after the character [c], when [s] starts with it. *)
Definition eat (c : ascii) (s : string) : option string :=
  match s with
  | String c' rest => if Ascii.eqb c' c then Some rest else None
  | EmptyString => None
  end.

(** The text after the word [null], when [s] starts with it. *)
Definition eatNull (s : string) : option string :=
  match eat "n" s with
  | Some s1 =>
      match eat "u" s1 with
      | Some s2 =>
          match eat "l" s2 with
          | Some s3 => eat "l" s3
          | None => None
          end
      | None => None
      end
  | None => None
  end.

(** A string literal or [null] at the head of [s]. *)
Definition scalar (s : string) : option (option string * string) :=
  match eat dquote s with
  | Some rest =>
      match stringBody rest with
      | Some (body, after) => Some (Some body, after)
      | None => None
      end
  | None =>
      match eatNull s with
      | Some after => Some (None, after)
      | None => None
      end
  end.

(** Members of an object, [s] standing at the first key; the members read
    so far are accumulated in [acc]. *)
Fixpoint members (fuel : nat) (s : string) (acc : list (string * option string))
  : option (list (string * option string) * string) :=
  match fuel with
  | O => None
  | S fuel' =>
      match scalar (skipWhitespace s) with
      | Some (Some key, after) =>
          match eat ":" (skipWhitespace after) with
          | Some after' =>
              match scalar (skipWhitespace after') with
              | Some (value, after'') =>
                  let rest := skipWhitespace after'' in
                  match eat "," rest, eat "}" rest with
                  | Some more, _ => members fuel' more (acc ++ [(key, value)])
                  | None, Some more => Some ((acc ++ [(key, value)]), more)
                  | None, None => None
                  end
              | None => None
              end
          | None => None
          end
      | _ => None
      end
  end.

(** The value of the last member named [key]. *)
Definition field (key : string) (fields : list (string * option string))
  : option (option string) :=
  snd <$> find (fun kv => String.eqb (fst kv) key) (rev fields).

Definition userOfFields (fields : list (string * option string))
  : ParseResult (option User) :=
  match field "id" fields, field "name" fields, field "email" fields with
  | Some (Some i), Some (Some n), Some (Some e) =>
      Parsed (Some (mkUser i n e
                      (default None (field "type" fields))
                      (default None (field "specialization" fields))
                      (default None (field "phone" fields))))
  | _, _, _ => SyntaxError
  end.

Definition parse (text : string) : ParseResult (option User) :=
  let s := skipWhitespace text in
  match eat "{" s with
  | Some rest =>
      let body := skipWhitespace rest in
      match eat "}" body with
      | Some after =>
          match skipWhitespace after with
          | EmptyString => userOfFields []
          | _ => SyntaxError
          end
      | None =>
          match members (String.length body) body [] with
          | Some (fields, after) =>
              match skipWhitespace after with
              | EmptyString => userOfFields fields
              | _ => SyntaxError
              end
          | None => SyntaxError
          end
      end
  | None =>
      match eatNull s with
      | Some after =>
          match skipWhitespace after with
          | EmptyString => Parsed None
          | _ => SyntaxError
          end
      | None => SyntaxError
      end
  end.

Definition codec : JSON := Build_JSON parse stringify.

End ReferenceCodec.

(** ** Request helpers over any response body

    The helpers of [frontend/lib/api.ts] once more, for the endpoints whose
    bodies carry other fields than [Api.Body] has.  [B] is the type of a
    decoded body. *)

Module Http.
Import JS.

Section WithBody.
Context {B : Type}.

Inductive FetchResult :=
  | Rejected (e : Api.Exception)
  | Response (ok : bool) (status : Z) (json : option B).

Inductive ApiResult :=
  | Resolved (body : B)
  | Failed (e : Api.Exception).

(** [apiRequest(url, options)]; [error] reads the [error] field of a body. *)
Definition apiRequest (error : B -> option string) (r : FetchResult) : ApiResult :=
  match r with
  | Rejected e => Failed (Api.rethrow e)
  | Response ok status json =>
      if negb ok then
        let errorOfData :=
          match json with
          | Some b => error b
          | None => Some "Request failed"
          end in
        Failed (Api.rethrow
                  (Api.Error (or_else errorOfData
                                ("HTTP error! status: " +:+ pretty status))))
      else
        match json with
        | Some b => Resolved b
        | None => Failed Api.JsonSyntaxError
        end
  end.

(** [const response = await fetch(...); return response.json()]. *)
Definition fetchJson (r : FetchResult) : ApiResult :=
  match r with
  | Rejected e => Failed e
  | Response _ _ (Some b) => Resolved b
  | Response _ _ None => Failed Api.JsonSyntaxError
  end.

End WithBody.

Arguments FetchResult B : clear implicits.
Arguments ApiResult B : clear implicits.

(** The requests of [Api] seen as requests over [Api.Body]. *)
Definition ofApi (r : Api.FetchResult) : FetchResult Api.Body :=
  match r with
  | Api.Rejected e => Rejected e
  | Api.Response ok status json => Response ok status json
  end.

Definition ofApiResult (r : Api.ApiResult) : ApiResult Api.Body :=
  match r with
  | Api.Resolved b => Resolved b
  | Api.Failed e => Failed e
  end.

End Http.

(** ** The request helper, with its console line and the value null

    [apiRequest] once more, for callers whose behaviour depends on two
    things the helpers above leave out: the line the helper writes to
    the console, and a response whose text is the JSON value [null],
    which decodes but has no field to read. *)

Module Request.
Import JS.

(** A decoded response text: the value [null], or a value whose fields
    can be read, [B] having the fields the program reads (a field that
    is absent reads as [None]). *)
Inductive Json (B : Type) : Type :=
  | JsonNull
  | JsonValue (b : B).
Arguments JsonNull {B}.
Arguments JsonValue {B} b.

(** The exception of reading the field [field] of [null].  The text is
    the one V8 gives; no part of the program tests it. *)
Definition nullRead (field : string) : Api.Exception :=
  Api.TypeError ("Cannot read properties of null (reading '" +:+ field +:+ "')").

(** What the [catch] block of [apiRequest] writes to the console before
    it throws. *)
Definition logged (e : Api.Exception) : list string :=
  match e with
  | Api.TypeError message =>
      if String.eqb message "Failed to fetch"
      then ["Backend server is not running. Please start the backend server."]
      else []
  | _ => []
  end.

Section WithBody.
Context {B : Type}.

(** [apiRequest(url, options)]: the lines written to the console and the
    outcome; [error] reads the [error] field of a body.  An exception
    thrown in the [try] block passes through the [catch] block; the
    rejection of the [response.json()] that is returned does not. *)
Definition apiRequest (error : B -> option string) (r : Http.FetchResult (Json B))
  : list string * Http.ApiResult (Json B) :=
  match r with
  | Http.Rejected e => (logged e, Http.Failed (Api.rethrow e))
  | Http.Response ok status json =>
      if negb ok then
        let thrown :=
          match json with
          | Some (JsonValue b) =>
              Api.Error (or_else (error b) ("HTTP error! status: " +:+ pretty status))
          | Some JsonNull => nullRead "error"
          | None =>
              Api.Error (or_else (Some "Request failed")
                           ("HTTP error! status: " +:+ pretty status))
          end in
        (logged thrown, Http.Failed (Api.rethrow thrown))
      else
        match json with
        | Some j => ([], Http.Resolved j)
        | None => ([], Http.Failed Api.JsonSyntaxError)
        end
  end.

End WithBody.

(** A response of [Http] seen as one whose body, if any, is not [null]. *)
Definition ofHttp {B : Type} (r : Http.FetchResult B) : Http.FetchResult (Json B) :=
  match r with
  | Http.Rejected e => Http.Rejected e
  | Http.Response ok status json => Http.Response ok status (JsonValue <$> json)
  end.

Definition ofHttpResult {B : Type} (r : Http.ApiResult B) : Http.ApiResult (Json B) :=
  match r with
  | Http.Resolved b => Http.Resolved (JsonValue b)
  | Http.Failed e => Http.Failed e
  end.

End Request.

(** ** Login pages *)

Module LoginPages.
Import JS Auth.

(** [result.user] of the login endpoint. *)
Record BackendUser := mkBackendUser {
  b_id : option string;
  b_name : string;
  b_email : string;
  b_phone : option string;
  b_specialization : option string
}.

(** Body of the login endpoint: [success] is the truthiness of
    [result.success]. *)
Record LoginBody := mkLoginBody {
  success : bool;
  user : option BackendUser;
  message : option string
}.

Record Page := mkPage {
  isLoading : bool;
  toasts : list Toast;
  pushed : list string;
  location : option string;
  console : list string
}.

(** State on first render. *)
Definition initial : Page := mkPage false [] [] None [].

Definition setIsLoading (b : bool) (pg : Page) : Page :=
  mkPage b (toasts pg) (pushed pg) (location pg) (console pg).

Definition toast (k : ToastKind) (msg : string) (pg : Page) : Page :=
  mkPage (isLoading pg) (toasts pg ++ [mkToast k msg]) (pushed pg) (location pg)
         (console pg).

(** [router.push(path)]. *)
Definition push (path : string) (pg : Page) : Page :=
  mkPage (isLoading pg) (toasts pg) (pushed pg ++ [path]) (location pg) (console pg).

(** [window.location.href = path]. *)
Definition setLocation (path : string) (pg : Page) : Page :=
  mkPage (isLoading pg) (toasts pg) (pushed pg) (Some path) (console pg).

Definition console_error (msg : string) (pg : Page) : Page :=
  mkPage (isLoading pg) (toasts pg) (pushed pg) (location pg) (console pg ++ [msg]).

(** [api.login(email, password, type)]. *)
Definition apiLogin (r : Http.FetchResult LoginBody) : Http.ApiResult LoginBody :=
  Http.fetchJson r.

Section WithJSON.
Context `{JSON}.


(** [handleSubmit] of the doctor login page. *)
Definition doctorSubmit (email password : string) (r : Http.FetchResult LoginBody)
    (pg : Page) (au : AuthState) : Page * AuthState :=
  let pg1 := setIsLoading true pg in
  let '(pg2, au2) :=
    match apiLogin r with
    | Http.Resolved result =>
        match success result, user result with
        | true, Some u =>
            let userData :=
              mkUser (or_else (b_id u) (b_email u)) (b_name u) (b_email u)
                     (Some "doctor") (b_specialization u) None in
            (setLocation "/doctor-dashboard"
               (toast ToastSuccess "Welcome back, Doctor!" pg1),
             setItem "userType" "doctor"
               (setItem "user" (JSON_stringify userData) au))
        | _, _ =>
            (toast ToastError (or_else (message result) "Invalid email or password") pg1,
             au)
        end
    | Http.Failed _ =>
        let '(ok, au') := login email password (Some "doctor") au in
        if ok then
          (push "/doctor-dashboard"
             (toast ToastSuccess "Welcome back, Doctor! (Demo mode)" pg1),
           au')
        else (toast ToastError "Invalid email or password" pg1, au')
    end in
  (setIsLoading false pg2, au2).

End WithJSON.

End LoginPages.

(** ** Prescriptions page *)

Module Prescriptions.
Import JS.

Module Prescription.
Record t := mk {
  id : Z;
  userId : string;
  doctor : string;
  medicines : list string;
  uploadDate : string;
  status : string
}.
End Prescription.

Module Extracted.
Record t := mk {
  prescribedName : string;
  dosage : string;
  frequency : string;
  duration : string
}.
End Extracted.

Module Raw.
Record t := mk {
  name : string;
  dosage : option string
}.
End Raw.

(** [PrescriptionOCRResult].  The page reads [medicines] and
    [rawMedicines] with [?.], so either may be missing. *)
Module OCR.
Record t := mk {
  medicines : option (list Extracted.t);
  doctorName : string;
  patientName : string;
  date : string;
  confidence : string;
  rawMedicines : option (list Raw.t)
}.
End OCR.

Module Reminder.
Record t := mk {
  id : Z;
  prescriptionId : Z;
  medicineName : string;
  time : string;
  date : Z;
  taken : bool;
  skipped : bool
}.
End Reminder.

(** Body of the prescriptions listing. *)
Record ListBody := mkListBody {
  prescriptions : option (list Prescription.t);
  error : option string
}.

(** Body of the prescription OCR endpoint. *)
Record OcrBody := mkOcrBody {
  success : bool;
  prescriptionData : option OCR.t;
  extractedTextOf : option string;
  ocrError : option string
}.

(** What [api.getUserPrescriptions] returns: the value the server sent,
    [null] included, or the object [{ prescriptions: [], error: message }]
    it builds from a caught exception. *)
Inductive Reply :=
  | FromServer (j : Request.Json ListBody)
  | Fallback (e : Api.Exception).

(** [api.getUserPrescriptions(userId)]: the lines written to the console
    and the value returned.  The call never fails: its [catch] block
    logs the exception and returns the fallback object. *)
Definition getUserPrescriptions (r : Http.FetchResult (Request.Json ListBody))
  : list string * Reply :=
  match Request.apiRequest error r with
  | (log, Http.Resolved j) => (log, FromServer j)
  | (log, Http.Failed e) => (log ++ ["Error fetching prescriptions:"], Fallback e)
  end.

(** [api.analyzePrescriptionImage(image)]. *)
Definition analyzePrescriptionImage (r : Http.FetchResult OcrBody)
  : Http.ApiResult OcrBody := Http.fetchJson r.

(** [api.createPrescription(data)]; the page does not read the body. *)
Definition createPrescription (r : Http.FetchResult unit) : Http.ApiResult unit :=
  Http.fetchJson r.

Record Page := mkPage {
  uploadedFile : option string;
  medicineReminders : list Reminder.t;
  prescriptionList : list Prescription.t;
  isLoading : bool;
  isAnalyzing : bool;
  ocrResult : option OCR.t;
  extractedText : string;
  toasts : list Toast;
  console : list string
}.

(** State on first render; the imported [reminders] array is empty. *)
Definition initial : Page := mkPage None [] [] true false None "" [] [].

Definition setUploadedFile (f : option string) (st : Page) : Page :=
  mkPage f (medicineReminders st) (prescriptionList st) (isLoading st)
         (isAnalyzing st) (ocrResult st) (extractedText st) (toasts st) (console st).

Definition setMedicineReminders (r : list Reminder.t) (st : Page) : Page :=
  mkPage (uploadedFile st) r (prescriptionList st) (isLoading st)
         (isAnalyzing st) (ocrResult st) (extractedText st) (toasts st) (console st).

Definition setPrescriptions (l : list Prescription.t) (st : Page) : Page :=
  mkPage (uploadedFile st) (medicineReminders st) l (isLoading st)
         (isAnalyzing st) (ocrResult st) (extractedText st) (toasts st) (console st).

Definition setIsLoading (b : bool) (st : Page) : Page :=
  mkPage (uploadedFile st) (medicineReminders st) (prescriptionList st) b
         (isAnalyzing st) (ocrResult st) (extractedText st) (toasts st) (console st).

Definition setIsAnalyzing (b : bool) (st : Page) : Page :=
  mkPage (uploadedFile st) (medicineReminders st) (prescriptionList st) (isLoading st)
         b (ocrResult st) (extractedText st) (toasts st) (console st).

Definition setOcrResult (o : option OCR.t) (st : Page) : Page :=
  mkPage (uploadedFile st) (medicineReminders st) (prescriptionList st) (isLoading st)
         (isAnalyzing st) o (extractedText st) (toasts st) (console st).

Definition setExtractedText (t : string) (st : Page) : Page :=
  mkPage (uploadedFile st) (medicineReminders st) (prescriptionList st) (isLoading st)
         (isAnalyzing st) (ocrResult st) t (toasts st) (console st).

Definition toast (k : ToastKind) (msg : string) (st : Page) : Page :=
  mkPage (uploadedFile st) (medicineReminders st) (prescriptionList st) (isLoading st)
         (isAnalyzing st) (ocrResult st) (extractedText st)
         (toasts st ++ [mkToast k msg]) (console st).

Definition console_error (msg : string) (st : Page) : Page :=
  mkPage (uploadedFile st) (medicineReminders st) (prescriptionList st) (isLoading st)
         (isAnalyzing st) (ocrResult st) (extractedText st) (toasts st)
         (console st ++ [msg]).

(** [loadPrescriptions()]; [user] says whether a user is signed in.  The
    console of the page receives the lines of the API call as well.
    Reading [response.prescriptions] throws when the response is [null],
    which takes the handler to its [catch] block. *)
Definition loadPrescriptions (user : bool)
    (r : Http.FetchResult (Request.Json ListBody)) (st : Page) : Page :=
  if negb user then st
  else
    let st1 := setIsLoading true st in
    let '(log, response) := getUserPrescriptions r in
    let st2 := fold_left (fun s line => console_error line s) log st1 in
    let st3 :=
      match response with
      | FromServer (Request.JsonValue b) =>
          setPrescriptions (default [] (prescriptions b)) st2
      | Fallback _ => setPrescriptions [] st2
      | FromServer Request.JsonNull =>
          toast ToastError "Failed to load prescriptions"
            (console_error "Failed to load prescriptions:" st2)
      end in
    setIsLoading false st3.

(** [array?.length > 0]. *)
Definition nonEmpty {A : Type} (l : option (list A)) : bool :=
  match l with
  | Some (_ :: _) => true
  | _ => false
  end.

Definition lengthOf {A : Type} (l : option (list A)) : Z :=
  Z.of_nat (length (default [] l)).

(** The [onloadend] callback of [handleFileUpload]: [imageData] is the
    file read as a data URL and [r] is what the network does with the
    analysis request. *)
Definition handleFileUpload (imageData : string) (r : Http.FetchResult OcrBody)
    (st : Page) : Page :=
  let st1 :=
    setExtractedText ""
      (setOcrResult None
         (setIsAnalyzing true
            (toast ToastSuccess "Prescription uploaded! Analyzing..."
               (setUploadedFile (Some imageData) st)))) in
  let st2 :=
    match analyzePrescriptionImage r with
    | Http.Resolved response =>
        match success response, prescriptionData response with
        | true, Some data =>
            let st' :=
              setExtractedText (or_else (extractedTextOf response) "")
                (setOcrResult (Some data) st1) in
            if nonEmpty (OCR.medicines data) then
              toast ToastSuccess
                ("Found " +:+ pretty (lengthOf (OCR.medicines data))
                 +:+ " medicine(s) in prescription!") st'
            else if nonEmpty (OCR.rawMedicines data) then
              toast ToastSuccess
                ("Extracted " +:+ pretty (lengthOf (OCR.rawMedicines data))
                 +:+ " medicine name(s)") st'
            else
              toast ToastInfo
                "Could not identify medicines clearly. Please check the extracted text."
                st'
        | _, _ =>
            toast ToastError
              (or_else (ocrError response) "Failed to analyze prescription") st1
        end
    | Http.Failed _ =>
        toast ToastError "Failed to analyze prescription image"
          (console_error "OCR Error:" st1)
    end in
  setIsAnalyzing false st2.

(** One entry of the [medicines] list that [savePrescription] sends. *)
Definition formatMedicine (m : Extracted.t) : string :=
  Extracted.prescribedName m
  +:+ (if truthy (Extracted.dosage m) then " (" +:+ Extracted.dosage m +:+ ")" else "")
  +:+ (if truthy (Extracted.frequency m) then " - " +:+ Extracted.frequency m else "").

(** [medicineNames] of [savePrescription]:
    [medicines?.map(...) || rawMedicines?.map(m => m.name) || []]; an
    array, empty or not, is truthy. *)
Definition medicineNames (ocr : OCR.t) : list string :=
  match OCR.medicines ocr with
  | Some ms => map formatMedicine ms
  | None =>
      match OCR.rawMedicines ocr with
      | Some rs => map Raw.name rs
      | None => []
      end
  end.

(** The [disabled] attribute of the Save button. *)
Definition saveDisabled (ocr : OCR.t) : bool :=
  negb (nonEmpty (OCR.medicines ocr)) && negb (nonEmpty (OCR.rawMedicines ocr)).

(** The request body [savePrescription] sends. *)
Record SaveRequest := mkSaveRequest {
  req_userId : string;
  req_doctor : string;
  req_medicines : list string
}.

Definition saveRequest (userId : string) (ocr : OCR.t) : SaveRequest :=
  mkSaveRequest userId (or_else (Some (OCR.doctorName ocr)) "Unknown Doctor")
                (medicineNames ocr).

(** [savePrescription()]; [rs] is what the network does with the save
    request and [rl] with the reload of the list that follows it. *)
Definition savePrescription (user : bool) (rs : Http.FetchResult unit)
    (rl : Http.FetchResult (Request.Json ListBody)) (st : Page) : Page :=
  match user, ocrResult st with
  | true, Some _ =>
      match createPrescription rs with
      | Http.Resolved _ =>
          setOcrResult None
            (setUploadedFile None
               (loadPrescriptions user rl
                  (toast ToastSuccess "Prescription saved!" st)))
      | Http.Failed _ => toast ToastError "Failed to save prescription" st
      end
  | _, _ => st
  end.

(** [markAsTaken(reminderId)]. *)
Definition markAsTaken (reminderId : Z) (st : Page) : Page :=
  toast ToastSuccess "Marked as taken!"
    (setMedicineReminders
       (map (fun r => if Z.eqb (Reminder.id r) reminderId
                      then Reminder.mk (Reminder.id r) (Reminder.prescriptionId r)
                             (Reminder.medicineName r) (Reminder.time r)
                             (Reminder.date r) true (Reminder.skipped r)
                      else r)
            (medicineReminders st)) st).

(** [markAsSkipped(reminderId)]. *)
Definition markAsSkipped (reminderId : Z) (st : Page) : Page :=
  toast ToastInfo "Marked as skipped"
    (setMedicineReminders
       (map (fun r => if Z.eqb (Reminder.id r) reminderId
                      then Reminder.mk (Reminder.id r) (Reminder.prescriptionId r)
                             (Reminder.medicineName r) (Reminder.time r)
                             (Reminder.date r) (Reminder.taken r) true
                      else r)
            (medicineReminders st)) st).

(** What can happen on the page after its first render: each handler
    with what the network does with the requests it makes. *)
Inductive Event :=
  | Load (user : bool) (r : Http.FetchResult (Request.Json ListBody))
  | Upload (imageData : string) (r : Http.FetchResult OcrBody)
  | Save (user : bool) (rs : Http.FetchResult unit)
         (rl : Http.FetchResult (Request.Json ListBody))
  | MarkTaken (reminderId : Z)
  | MarkSkipped (reminderId : Z).

Definition handle (ev : Event) (st : Page) : Page :=
  match ev with
  | Load user r => loadPrescriptions user r st
  | Upload imageData r => handleFileUpload imageData r st
  | Save user rs rl => savePrescription user rs rl st
  | MarkTaken reminderId => markAsTaken reminderId st
  | MarkSkipped reminderId => markAsSkipped reminderId st
  end.

Definition run (events : list Event) (st : Page) : Page :=
  fold_left (fun s ev => handle ev s) events st.

End Prescriptions.

(** ** Consultations page: tabs and notification actions *)

Module ConsultationActions.
Import JS Consultations.

Definition setShowNotifications (b : bool) (st : Page) : Page :=
  mkPage (consultations st) (isLoading st) (notifications st) (unreadCount st)
         b (toasts st) (console st).






Definition markNotificationRead (r : Api.FetchResult) : Api.ApiResult :=
  Api.apiRequest r.

Definition markAllNotificationsRead (r : Api.FetchResult) : Api.ApiResult :=
  Api.apiRequest r.

(** Truthiness of [notification.consultationId]. *)
Definition hasConsultation (n : Api.Notification.t) : bool :=
  match Api.Notification.consultationId n with
  | Some i => negb (Z.eqb i 0)
  | None => false
  end.

(** [handleNotificationClick(notification)]; [rm], [rn] and [rc] are what
    the network does with the mark-read request and with the two reloads. *)
Definition handleNotificationClick (notification : Api.Notification.t)
    (user : option Auth.User) (rm rn rc : Api.FetchResult) (st : Page) : Page :=
  let st1 :=
    match markNotificationRead rm with
    | Api.Resolved _ => loadNotifications user rn st
    | Api.Failed _ => console_error "Failed to mark notification as read:" st
    end in
  if hasConsultation notification then
    setShowNotifications false (loadConsultations user rc st1)
  else st1.

(** [handleMarkAllRead()]. *)
Definition handleMarkAllRead (user : option Auth.User) (rm rn : Api.FetchResult)
    (st : Page) : Page :=
  match user with
  | None => st
  | Some _ =>
      match markAllNotificationsRead rm with
      | Api.Resolved _ =>
          toast ToastSuccess "All notifications marked as read"
            (loadNotifications user rn st)
      | Api.Failed _ =>
          toast ToastError "Failed to mark notifications as read"
            (console_error "Failed to mark all as read:" st)
      end
  end.

End ConsultationActions.

(** ** Redirects of the pages *)

Module Routes.
Import JS Auth.

(** The effect of [HomePage]: the path it pushes, if any. *)
Definition homeRedirect (st : AuthState) : option string :=
  match user st with
  | None => Some "/login"
  | Some _ =>
      if type_is "patient" (userType st) then Some "/patient-dashboard"
      else if type_is "doctor" (userType st) then Some "/doctor-dashboard"
      else None
  end.

(** The same effect in the other copy of [HomePage], which tests
    [isAuthenticated] and the doctor role first. *)
Definition homeRedirectAlt (st : AuthState) : option string :=
  if negb (isAuthenticated st) then Some "/login"
  else if type_is "doctor" (userType st) then Some "/doctor-dashboard"
  else if type_is "patient" (userType st) then Some "/patient-dashboard"
  else None.

(** The first effect of [PatientDashboardPage]. *)
Definition patientDashboardRedirect (st : AuthState) : option string :=
  if negb (isLoading st) then
    match user st with
    | None => Some "/login"
    | Some _ =>
        if type_is "doctor" (userType st) then Some "/doctor-dashboard" else None
    end
  else None.

(** Whether [PatientDashboardPage] renders its chat: not while loading,
    and only for a user whose type is patient. *)
Definition patientDashboardShown (st : AuthState) : bool :=
  negb (isLoading st)
  && match user st with
     | Some _ => type_is "patient" (userType st)
     | None => false
     end.

(** The first effect of [DoctorDashboardPage]. *)
Definition doctorDashboardRedirect (st : AuthState) : option string :=
  if isLoading st then None
  else
    match user st with
    | None => Some "/login/doctor"
    | Some _ =>
        if type_is "doctor" (userType st) then None else Some "/login/doctor"
    end.

(** Whether [DoctorDashboardPage] renders its content: not while
    loading, and only for a user whose type is doctor. *)
Definition doctorDashboardShown (st : AuthState) : bool :=
  negb (isLoading st)
  && match user st with
     | Some _ => type_is "doctor" (userType st)
     | None => false
     end.

(** Whether [OrderPage] and [MedicineInfoPage] render their content: once
    loading is over, for any user. *)
Definition loadedUserPageShown (st : AuthState) : bool :=
  negb (isLoading st) && isAuthenticated st.

(** Whether [ConsultationsPage] and [PrescriptionsPage] render their
    content: for any user. *)
Definition userPageShown (st : AuthState) : bool := isAuthenticated st.

(** The redirect of [OrderPage], [MedicineInfoPage], [ConsultationsPage]
    and [PrescriptionsPage]: to the login page once loading is over and
    no user is there. *)
Definition guardedRedirect (st : AuthState) : option string :=
  if negb (isLoading st) then
    match user st with
    | None => Some "/login"
    | Some _ => None
    end
  else None.

(** [navItems] of [Navigation]: the hrefs of the menu. *)
Definition patientNavItems : list string :=
  ["/patient-dashboard"; "/medicine-info"; "/order"; "/consultations"; "/prescriptions"].

Definition doctorNavItems : list string := ["/doctor-dashboard"].

Definition navItems (st : AuthState) : list string :=
  if type_is "doctor" (userType st) then doctorNavItems else patientNavItems.

End Routes.

(** ** Text tests

    For the tests on the characters of a text, a character of a [string]
    stands for one UTF-16 code unit below 256. *)

Module Text.

(** The characters that [trim()] removes and that [\s] matches. *)
Definition isSpace (c : ascii) : bool :=
  let n := nat_of_ascii c in
  (Nat.leb 9 n && Nat.leb n 13) || Nat.eqb n 32 || Nat.eqb n 160.

(** [!s.trim()]: the text has nothing but white space. *)
Fixpoint isBlank (s : string) : bool :=
  match s with
  | EmptyString => true
  | String c rest => isSpace c && isBlank rest
  end.

(** [[0-9]]. *)
Definition isDigit (c : ascii) : bool :=
  let n := nat_of_ascii c in Nat.leb 48 n && Nat.leb n 57.

Fixpoint allDigits (s : string) : bool :=
  match s with
  | EmptyString => true
  | String c rest => isDigit c && allDigits rest
  end.

End Text.

(** ** Patient registration page *)

Module Register.
Import JS Text.

Record FormData := mkFormData {
  name : string;
  email : string;
  password : string;
  confirmPassword : string;
  phone : string
}.

Record RegisterBody := mkRegisterBody {
  success : bool;
  message : option string;
  error : option string
}.

Record Page := mkPage {
  formData : FormData;
  isLoading : bool;
  toasts : list Toast;
  console : list string;
  scheduled : list string
}.

(** State on first render. *)
Definition initial : Page := mkPage (mkFormData "" "" "" "" "") false [] [] [].

Definition setFormData (fd : FormData) (st : Page) : Page :=
  mkPage fd (isLoading st) (toasts st) (console st) (scheduled st).

Definition setIsLoading (b : bool) (st : Page) : Page :=
  mkPage (formData st) b (toasts st) (console st) (scheduled st).

Definition toast (k : ToastKind) (msg : string) (st : Page) : Page :=
  mkPage (formData st) (isLoading st) (toasts st ++ [mkToast k msg]) (console st)
         (scheduled st).

Definition console_error (msg : string) (st : Page) : Page :=
  mkPage (formData st) (isLoading st) (toasts st) (console st ++ [msg]) (scheduled st).

(** [setTimeout(() => router.push(path), 2000)]. *)
Definition schedulePush (path : string) (st : Page) : Page :=
  mkPage (formData st) (isLoading st) (toasts st) (console st) (scheduled st ++ [path]).

(** [[-()\s]]. *)
Definition isSeparator (c : ascii) : bool :=
  let n := nat_of_ascii c in
  Nat.eqb n 45 || Nat.eqb n 40 || Nat.eqb n 41 || isSpace c.

(** [phone.replace(/[-()\s]/g, '')]. *)
Fixpoint stripSeparators (s : string) : string :=
  match s with
  | EmptyString => EmptyString
  | String c rest =>
      if isSeparator c then stripSeparators rest else String c (stripSeparators rest)
  end.

(** [/^[0-9]{10}$/.test(s)]. *)
Definition phoneRegexTest (s : string) : bool :=
  Nat.eqb (String.length s) 10 && allDigits s.

(** The validation at the head of [handleSubmit]: the message of the
    first check that fails. *)
Definition validate (fd : FormData) : option string :=
  if negb (String.eqb (password fd) (confirmPassword fd)) then
    Some "Passwords do not match"
  else if Nat.ltb (String.length (password fd)) 6 then
    Some "Password must be at least 6 characters"
  else if isBlank (phone fd) then
    Some "Please enter your mobile number"
  else if negb (phoneRegexTest (stripSeparators (phone fd))) then
    Some "Please enter a valid 10-digit mobile number"
  else None.

(** [api.registerPatient(data)]. *)
Definition registerPatient (r : Http.FetchResult RegisterBody)
  : Http.ApiResult RegisterBody :=
  match r with
  | Http.Rejected e => Http.Failed (Api.rethrow e)
  | Http.Response ok status json =>
      if negb ok then
        let errorData :=
          match json with
          | Some b => b
          | None => mkRegisterBody false None (Some "Registration failed")
          end in
        Http.Failed
          (Api.rethrow
             (Api.Error
                (or_else (message errorData)
                   (or_else (error errorData)
                      ("HTTP error! status: " +:+ pretty status)))))
      else
        match json with
        | Some b => Http.Resolved b
        | None => Http.Failed Api.JsonSyntaxError
        end
  end.

(** [handleSubmit]; [r] is what the network does with the registration
    request. *)
Definition handleSubmit (r : Http.FetchResult RegisterBody) (st : Page) : Page :=
  match validate (formData st) with
  | Some msg => toast ToastError msg st
  | None =>
      let st1 := setIsLoading true st in
      let st2 :=
        match registerPatient r with
        | Http.Resolved result =>
            if success result then
              schedulePush "/login/patient"
                (toast ToastSuccess "Registration successful! You can now login." st1)
            else toast ToastError (or_else (message result) "Registration failed") st1
        | Http.Failed _ =>
            toast ToastError "Failed to register. Please try again."
              (console_error "Registration error:" st1)
        end in
      setIsLoading false st2
  end.

(** What the specification of a phone number comes to: every character is
    a digit or a separator, and the digits are ten. *)
Fixpoint digitCount (s : string) : nat :=
  match s with
  | EmptyString => 0
  | String c rest => (if isDigit c then 1 else 0) + digitCount rest
  end.

Fixpoint onlyDigitsAndSeparators (s : string) : bool :=
  match s with
  | EmptyString => true
  | String c rest => (isDigit c || isSeparator c) && onlyDigitsAndSeparators rest
  end.

End Register.

(** ** The health chat of the patient dashboard *)

Module Chat.
Import JS Text.

Module Medicine.
Record t := mk {
  id : Z;
  name : string;
  composition : string;
  price : float
}.
End Medicine.

Module Message.
Record t := mk {
  id : Z;
  sender : string;
  message : string;
  timestamp : Z;
  severity : option string;
  medicines : option (list Medicine.t);
  recommendations : option (list string);
  followUpQuestions : option (list string);
  doctorConsultation : option string;
  urgencyLevel : option string
}.
End Message.

(** Body of the symptom analysis endpoint. *)
Record AnalysisBody := mkAnalysisBody {
  analysis : option string;
  severity : option string;
  suggestedMedicines : option (list Medicine.t);
  recommendations : option (list string);
  followUpQuestions : option (list string);
  doctorConsultation : option string;
  urgencyLevel : option string
}.

Record Page := mkPage {
  messages : list Message.t;
  inputMessage : string;
  isTyping : bool;
  toasts : list Toast;
  console : list string
}.

(** State on first render: the greeting of the assistant, whose text is
    [welcome], created at time [now]. *)
Definition initial (welcome : string) (now : Z) : Page :=
  mkPage [Message.mk 1 "ai" welcome now None None None None None None] "" false [] [].

Definition setMessages (l : list Message.t) (st : Page) : Page :=
  mkPage l (inputMessage st) (isTyping st) (toasts st) (console st).

Definition setInputMessage (t : string) (st : Page) : Page :=
  mkPage (messages st) t (isTyping st) (toasts st) (console st).

Definition setIsTyping (b : bool) (st : Page) : Page :=
  mkPage (messages st) (inputMessage st) b (toasts st) (console st).

Definition toast (k : ToastKind) (msg : string) (st : Page) : Page :=
  mkPage (messages st) (inputMessage st) (isTyping st) (toasts st ++ [mkToast k msg])
         (console st).

Definition console_write (msg : string) (st : Page) : Page :=
  mkPage (messages st) (inputMessage st) (isTyping st) (toasts st) (console st ++ [msg]).

(** [api.analyzeSymptoms(symptoms, followUpAnswers, language)]. *)
Definition analyzeSymptoms (r : Http.FetchResult AnalysisBody)
  : Http.ApiResult AnalysisBody := Http.fetchJson r.

(** [handleSendMessage()]; [sentAt] and [answeredAt] are the times at
    which the two messages are created and [r] is what the network does
    with the analysis request. *)
Definition handleSendMessage (sentAt answeredAt : Z) (r : Http.FetchResult AnalysisBody)
    (st : Page) : Page :=
  if isBlank (inputMessage st) then st
  else
    let count := Z.of_nat (length (messages st)) in
    let newMessage :=
      Message.mk (count + 1) "user" (inputMessage st) sentAt
                 None None None None None None in
    let st1 :=
      setIsTyping true (setInputMessage "" (setMessages (messages st ++ [newMessage]) st)) in
    match analyzeSymptoms r with
    | Http.Resolved response =>
        let st2 := console_write "Suggested Medicines:" (console_write "AI Response:" st1) in
        let aiResponse :=
          Message.mk (count + 2) "ai"
            (or_else (analysis response) "I've analyzed your symptoms.")
            answeredAt
            (severity response)
            (Some (default [] (suggestedMedicines response)))
            (Some (default [] (recommendations response)))
            (Some (default [] (followUpQuestions response)))
            (doctorConsultation response)
            (urgencyLevel response) in
        setIsTyping false (setMessages (messages st2 ++ [aiResponse]) st2)
    | Http.Failed _ =>
        let st2 :=
          toast ToastError "Failed to analyze symptoms. Please try again."
            (console_write "AI Analysis Error:" st1) in
        let errorResponse :=
          Message.mk (count + 2) "ai"
            "I'm having trouble analyzing your symptoms right now. Please make sure the backend server is running, or consult a doctor directly."
            answeredAt None None None None None None in
        setIsTyping false (setMessages (messages st2 ++ [errorResponse]) st2)
    end.

(** Typing a text and sending it. *)
Record Send := mkSend {
  typed : string;
  sentAt : Z;
  answeredAt : Z;
  response : Http.FetchResult AnalysisBody
}.

Definition send (s : Send) (st : Page) : Page :=
  handleSendMessage (sentAt s) (answeredAt s) (response s) (setInputMessage (typed s) st).

Definition runSends (sends : list Send) (st : Page) : Page :=
  fold_left (fun st s => send s st) sends st.

(** Messages numbered by their place in the conversation, from one. *)
Definition numbered (l : list Message.t) : Prop :=
  forall k m, l !! k = Some m -> Message.id m = Z.of_nat k + 1.

End Chat.

(** * Properties *)

(** ** The cart *)

Module CartFacts.
Import JS Order CartOps.

Lemma find_by_id_Some (i : Z) (items : list Medicine) :
  i ∈ map id items -> exists m, find (fun m => Z.eqb (id m) i) items = Some m.
Proof.
  induction items as [|m items IH]; simpl.
  - intros Hin. inversion Hin.
  - intros Hin. apply elem_of_cons in Hin as [-> | Hin].
    + rewrite Z.eqb_refl. eauto.
    + destruct (Z.eqb (id m) i); eauto.
Qed.

Lemma find_by_id_None (i : Z) (items : list Medicine) :
  i ∉ map id items -> find (fun m => Z.eqb (id m) i) items = None.
Proof.
  induction items as [|m items IH]; simpl; [done|].
  intros Hnot. apply not_elem_of_cons in Hnot as [Hne Hnot].
  destruct (Z.eqb_spec (id m) i); [congruence | auto].
Qed.

Lemma addMedicineUpdate_existing (medicine : Medicine) (items : list Medicine) :
  id medicine ∈ map id items ->
  addMedicineUpdate medicine items = map (bump (id medicine)) items.
Proof.
  intros Hin. unfold addMedicineUpdate.
  destruct (find_by_id_Some _ _ Hin) as [m ->]. reflexivity.
Qed.

Lemma addMedicineUpdate_new (medicine : Medicine) (items : list Medicine) :
  id medicine ∉ map id items ->
  addMedicineUpdate medicine items = items ++ [withQuantity medicine 1].
Proof.
  intros Hnot. unfold addMedicineUpdate.
  rewrite (find_by_id_None _ _ Hnot). reflexivity.
Qed.

(** The button handler and the URL effect update the cart alike. *)
Lemma addToCart_cart (medicine : Medicine) (st : OrderPage) :
  cart (addToCart medicine st) = addMedicineUpdate medicine (cart st).
Proof.
  unfold addToCart, addMedicineUpdate.
  destruct (find _ (cart st)); reflexivity.
Qed.

Lemma addFromParam_cart (medicine : Medicine) (st : OrderPage) :
  cart (addFromParam medicine st) = addMedicineUpdate medicine (cart st).
Proof. reflexivity. Qed.

Lemma addItem_cart (c : AddCall) (st : OrderPage) :
  cart (addItem c st) = addMedicineUpdate (medicineOf c) (cart st).
Proof. destruct c; [apply addToCart_cart | apply addFromParam_cart]. Qed.

Lemma id_bump (i : Z) (m : Medicine) : id (bump i m) = id m.
Proof. unfold bump. destruct (Z.eqb (id m) i); reflexivity. Qed.

Lemma map_id_bump (i : Z) (items : list Medicine) :
  map id (map (bump i) items) = map id items.
Proof.
  rewrite map_map. apply map_ext. intros m. apply id_bump.
Qed.

Lemma runAdds_snoc (calls : list AddCall) (c : AddCall) (st : OrderPage) :
  runAdds (calls ++ [c]) st = addItem c (runAdds calls st).
Proof. unfold runAdds. rewrite fold_left_app. reflexivity. Qed.

Lemma run_snoc (ops : list CartOp) (op : CartOp) (st : OrderPage) :
  run (ops ++ [op]) st = applyOp op (run ops st).
Proof. unfold run. rewrite fold_left_app. reflexivity. Qed.

Lemma timesAdded_snoc (i : Z) (calls : list AddCall) (c : AddCall) :
  timesAdded i (calls ++ [c]) =
  timesAdded i calls + (if Z.eqb (id (medicineOf c)) i then 1 else 0).
Proof.
  unfold timesAdded. rewrite filter_app, length_app, Nat2Z.inj_add.
  f_equal. rewrite filter_cons, filter_nil.
  destruct (Z.eqb_spec (id (medicineOf c)) i);
    destruct (decide (id (medicineOf c) = i)); try done.
Qed.

Lemma timesAdded_absent (i : Z) (calls : list AddCall) :
  (forall c, c ∈ calls -> id (medicineOf c) <> i) -> timesAdded i calls = 0.
Proof.
  intros Hnone. unfold timesAdded.
  induction calls as [|c calls IH]; [reflexivity|].
  rewrite filter_cons. destruct (decide (id (medicineOf c) = i)) as [Heq|Hne].
  - exfalso. apply (Hnone c); [left | exact Heq].
  - apply IH. intros c' Hc'. apply Hnone. by right.
Qed.

Lemma builtBy_nil : builtBy [] [].
Proof.
  repeat split.
  - constructor.
  - intros Hin. inversion Hin.
  - intros (c & Hc & _). inversion Hc.
  - intros m Hm. inversion Hm.
Qed.

Lemma elem_of_map_bump (i : Z) (m' : Medicine) (items : list Medicine) :
  m' ∈ map (bump i) items -> exists m, m ∈ items /\ m' = bump i m.
Proof.
  rewrite list_elem_of_In. intros Hin. apply in_map_iff in Hin as (m & <- & Hm).
  exists m. split; [by apply list_elem_of_In | reflexivity].
Qed.

(** One more add call keeps the cart in step with the calls made. *)
Lemma builtBy_step (calls : list AddCall) (c : AddCall) (items : list Medicine) :
  builtBy calls items ->
  builtBy (calls ++ [c]) (addMedicineUpdate (medicineOf c) items).
Proof.
  intros (Hnodup & Hids & Hqty).
  set (i0 := id (medicineOf c)).
  destruct (decide (i0 ∈ map id items)) as [Hin | Hnot].
  - rewrite addMedicineUpdate_existing by exact Hin. fold i0.
    split; [by rewrite map_id_bump|]. split.
    + intros i. rewrite map_id_bump, Hids. split.
      * intros (c' & Hc' & Hi). exists c'. split; [|done].
        apply elem_of_app. by left.
      * intros (c' & Hc' & Hi). apply elem_of_app in Hc' as [Hc' | Hc'].
        -- by exists c'.
        -- apply list_elem_of_singleton in Hc' as ->. apply Hids. by rewrite <- Hi.
    + intros m' Hm'. apply elem_of_map_bump in Hm' as (m & Hm & ->).
      rewrite id_bump, timesAdded_snoc. fold i0. unfold bump.
      destruct (Z.eqb_spec (id m) i0) as [Heq | Hne]; simpl.
      * rewrite (Hqty m Hm), Z.eqb_sym. destruct (Z.eqb_spec (id m) i0); [done | congruence].
      * rewrite (Hqty m Hm), Z.eqb_sym. destruct (Z.eqb_spec (id m) i0); [congruence | lia].
  - rewrite addMedicineUpdate_new by exact Hnot. fold i0.
    unfold builtBy. rewrite map_app. simpl.
    split; [|split].
    + apply NoDup_app. split; [exact Hnodup|]. split.
      * intros i Hi Hi'. apply list_elem_of_singleton in Hi' as ->. by apply Hnot.
      * apply NoDup_singleton.
    + intros i. rewrite elem_of_app, Hids, list_elem_of_singleton. split.
      * intros [(c' & Hc' & Hi) | ->].
        -- exists c'. split; [apply elem_of_app; by left | done].
        -- exists c. split; [apply elem_of_app; right; by apply list_elem_of_singleton | done].
      * intros (c' & Hc' & Hi). apply elem_of_app in Hc' as [Hc' | Hc'].
        -- left. by exists c'.
        -- apply list_elem_of_singleton in Hc' as ->. by right.
    + intros m Hm. rewrite timesAdded_snoc. fold i0.
      apply elem_of_app in Hm as [Hm | Hm].
      * assert (id m <> i0) as Hne.
        { intros Heq. apply Hnot. rewrite <- Heq, list_elem_of_In.
          apply in_map. by apply list_elem_of_In. }
        rewrite (Hqty m Hm), Z.eqb_sym.
        destruct (Z.eqb_spec (id m) i0); [congruence | lia].
      * apply list_elem_of_singleton in Hm as ->. simpl. fold i0.
        rewrite Z.eqb_refl, timesAdded_absent; [reflexivity|].
        intros c' Hc' Heq. apply Hnot, Hids. by exists c'.
Qed.

Lemma builtBy_runAdds (calls : list AddCall) (st : OrderPage) :
  cart st = [] -> builtBy calls (cart (runAdds calls st)).
Proof.
  intros Hempty. induction calls as [|c calls IH] using rev_ind.
  - simpl. rewrite Hempty. apply builtBy_nil.
  - rewrite runAdds_snoc, addItem_cart. by apply builtBy_step.
Qed.

(** C1: whatever sequence of add calls is made on an empty cart, through
    the Add button or through the URL parameter, the cart holds exactly
    one row per distinct medicine identifier added, the quantity of a row
    is the number of times its identifier was added, and one more call
    either increments the row of an identifier already present, leaving
    every row in its place, or appends a row with quantity 1 at the end. *)
Theorem addItem_sequence_cart (st : OrderPage) (calls : list AddCall) :
  cart st = [] ->
  let items := cart (runAdds calls st) in
  NoDup (map id items)
  /\ (forall i, i ∈ map id items <-> exists c, c ∈ calls /\ id (medicineOf c) = i)
  /\ (forall m, m ∈ items -> quantity m = timesAdded (id m) calls)
  /\ (forall c,
        let items' := cart (runAdds (calls ++ [c]) st) in
        (id (medicineOf c) ∈ map id items ->
           items' = map (bump (id (medicineOf c))) items
           /\ map id items' = map id items)
        /\ (id (medicineOf c) ∉ map id items ->
           items' = items ++ [withQuantity (medicineOf c) 1])).
Proof.
  intros Hempty items.
  destruct (builtBy_runAdds calls st Hempty) as (Hnodup & Hids & Hqty).
  split; [exact Hnodup|]. split; [exact Hids|]. split; [exact Hqty|].
  intros c items'. subst items'. rewrite runAdds_snoc, addItem_cart.
  fold items. split.
  - intros Hin. rewrite addMedicineUpdate_existing by exact Hin.
    split; [reflexivity | apply map_id_bump].
  - intros Hnot. by apply addMedicineUpdate_new.
Qed.

Lemma addItem_sequence_cart_witness :
  let paracetamol := mkMedicine 7 "Paracetamol" 20 0 in
  let cetirizine := mkMedicine 9 "Cetirizine" 35 0 in
  let calls := [ViaButton paracetamol; ViaUrlParam cetirizine; ViaButton paracetamol] in
  cart initial = []
  /\ cart (runAdds calls initial)
     = [withQuantity paracetamol 2; withQuantity cetirizine 1]
  /\ NoDup (map id (cart (runAdds calls initial))).
Proof.
  intros paracetamol cetirizine calls.
  split; [reflexivity|]. split; [reflexivity|].
  exact (proj1 (addItem_sequence_cart initial calls eq_refl)).
Defined.

(** The reduce over the first [k] rows is the rounded sum of those
    rows. *)
Lemma reduce_take (items : list Medicine) (k : nat) :
  (k <= length items)%nat ->
  fold_left (fun sum m => (sum + price m * ofInteger (quantity m))%float)
            (take k items) 0%float
  = roundedSum k items.
Proof.
  induction k as [|k IH]; intros Hk; [reflexivity|].
  destruct (items !! k) as [m|] eqn:Hm.
  - rewrite (take_S_r _ _ _ Hm), fold_left_app. simpl.
    rewrite Hm, IH by lia. reflexivity.
  - apply lookup_ge_None in Hm. lia.
Qed.

Lemma total_roundedSum (st : OrderPage) :
  total st = roundedSum (length (cart st)) (cart st).
Proof.
  unfold total. rewrite <- reduce_take by reflexivity. by rewrite firstn_all.
Qed.

(** Setting a quantity of at least one and then setting back the
    quantity the rows of that identifier had returns the cart from
    before. *)
Lemma updateQuantity_back_cart (i q1 q2 : Z) (st : OrderPage) :
  1 <= q1 -> 1 <= q2 ->
  (forall r, r ∈ cart st -> id r = i -> quantity r = q2) ->
  cart (updateQuantity i q2 (updateQuantity i q1 st)) = cart st.
Proof.
  intros Hq1 Hq2 Hsame. unfold updateQuantity.
  destruct (Z.ltb_spec q1 1); [lia|]. destruct (Z.ltb_spec q2 1); [lia|]. simpl.
  induction (cart st) as [|m items IH]; [reflexivity|]. simpl.
  rewrite IH by (intros r Hr; apply Hsame; by right).
  destruct (Z.eqb_spec (id m) i) as [Heq | Hne]; simpl.
  - rewrite Heq, Z.eqb_refl. f_equal.
    rewrite <- (Hsame m); [by destruct m | by left | done].
  - by destruct (Z.eqb_spec (id m) i).
Qed.

(** C2, as the code has it: after any interleaving of add and
    set-quantity operations the total shown is the sum of price times
    quantity over the rows of the cart taken in cart order and computed
    in binary64 numbers, each product and each partial sum rounded; it
    is computed from the current rows alone, so two states with the same
    rows show the same total, whatever was shown before; in particular
    a quantity that is changed and then changed back shows exactly the
    total from before. *)
Theorem total_after_operations (ops : list CartOp) (st : OrderPage) :
  total (run ops st)
  = roundedSum (length (cart (run ops st))) (cart (run ops st))
  /\ (forall st', cart st' = cart (run ops st) -> total st' = total (run ops st))
  /\ (forall i q1 q2, 1 <= q1 -> 1 <= q2 ->
        (forall r, r ∈ cart (run ops st) -> id r = i -> quantity r = q2) ->
        total (run (ops ++ [SetQuantity i q1; SetQuantity i q2]) st)
        = total (run ops st)).
Proof.
  assert (forall st1 st2, cart st1 = cart st2 -> total st1 = total st2) as Hrows.
  { intros st1 st2 Hsame. unfold total. by rewrite Hsame. }
  split; [apply total_roundedSum|]. split.
  - intros st' Hsame. by apply Hrows.
  - intros i q1 q2 Hq1 Hq2 Hsame. apply Hrows.
    unfold run. rewrite fold_left_app. simpl.
    by apply updateQuantity_back_cart.
Qed.

Lemma total_after_operations_witness :
  let paracetamol := mkMedicine 7 "Paracetamol" 20 0 in
  let cetirizine := mkMedicine 9 "Cetirizine" 35.5 0 in
  let ops := [AddItem (ViaButton paracetamol); AddItem (ViaButton cetirizine);
              SetQuantity 7 3; AddItem (ViaUrlParam cetirizine)] in
  total (run ops initial) = 131%float
  /\ total (setAddress "12 MG Road" (run ops initial)) = total (run ops initial).
Proof.
  intros paracetamol cetirizine ops. split.
  - rewrite (proj1 (total_after_operations ops initial)). reflexivity.
  - exact (proj1 (proj2 (total_after_operations ops initial))
                 (setAddress "12 MG Road" (run ops initial)) eq_refl).
Defined.

(** C2, as the specification words it, fails: three medicines priced
    12.1, 45.5 and 15.3 added in that order show the total 72.9, added in
    the opposite order they show 72.89999999999999; the sum of the three
    prices lies strictly between the two, so neither total is the sum of
    price times quantity, and the total depends on the order of the
    rows. *)
Lemma total_is_rounded :
  let syrup := mkMedicine 1 "Cough Syrup" 12.1 0 in
  let cetirizine := mkMedicine 2 "Cetirizine" 45.5 0 in
  let drops := mkMedicine 3 "Eye Drops" 15.3 0 in
  let st := run [AddItem (ViaButton syrup); AddItem (ViaButton cetirizine);
                 AddItem (ViaButton drops)] initial in
  let st' := run [AddItem (ViaButton drops); AddItem (ViaButton cetirizine);
                  AddItem (ViaButton syrup)] initial in
  total st = 72.9%float
  /\ total st' = 72.89999999999999%float
  /\ isSumPriceQuantity (total st) (cart st) = false
  /\ isSumPriceQuantity (total st') (cart st') = false
  /\ match exactValue (total st'), sumPriceQuantity (cart st),
           sumPriceQuantity (cart st'), exactValue (total st) with
     | Some below, Some sum, Some sum', Some above =>
         (below < sum)%Q /\ (sum == sum')%Q /\ (sum < above)%Q
     | _, _, _, _ => False
     end.
Proof.
  intros syrup cetirizine drops st st'.
  split; [reflexivity|]. split; [reflexivity|].
  split; [reflexivity|]. split; [reflexivity|].
  vm_compute. repeat split; intros; discriminate.
Qed.

(** *** Setting a quantity *)

Lemma updateQuantity_remove (i qty : Z) (st : OrderPage) :
  qty < 1 ->
  cart (updateQuantity i qty st) = filter (fun m => id m <> i) (cart st).
Proof.
  intros Hlt. unfold updateQuantity.
  destruct (Z.ltb_spec qty 1); [reflexivity | lia].
Qed.

Lemma updateQuantity_set (i qty : Z) (st : OrderPage) :
  1 <= qty ->
  cart (updateQuantity i qty st)
  = map (fun m => if Z.eqb (id m) i then withQuantity m qty else m) (cart st).
Proof.
  intros Hge. unfold updateQuantity.
  destruct (Z.ltb_spec qty 1); [lia | reflexivity].
Qed.

Lemma filter_absent (i : Z) (items : list Medicine) :
  i ∉ map id items -> filter (fun m => id m <> i) items = items.
Proof.
  induction items as [|m items IH]; [done|]. simpl.
  intros Hnot. apply not_elem_of_cons in Hnot as [Hne Hnot].
  rewrite filter_cons. destruct (decide (id m <> i)) as [_ | Hnn].
  - by rewrite IH.
  - exfalso. apply Hnn. congruence.
Qed.

Lemma map_absent (i qty : Z) (items : list Medicine) :
  i ∉ map id items ->
  map (fun m => if Z.eqb (id m) i then withQuantity m qty else m) items = items.
Proof.
  induction items as [|m items IH]; [done|]. simpl.
  intros Hnot. apply not_elem_of_cons in Hnot as [Hne Hnot].
  destruct (Z.eqb_spec (id m) i); [congruence|]. by rewrite IH.
Qed.

Lemma setCart_same (st : OrderPage) : setCart (cart st) st = st.
Proof. by destruct st. Qed.

Lemma updateQuantity_absent (i qty : Z) (st : OrderPage) :
  i ∉ map id (cart st) -> updateQuantity i qty st = st.
Proof.
  intros Hnot. unfold updateQuantity. destruct (Z.ltb qty 1).
  - rewrite filter_absent by done. apply setCart_same.
  - rewrite map_absent by done. apply setCart_same.
Qed.

Lemma addMedicineUpdate_positive (medicine : Medicine) (items : list Medicine) :
  positiveQuantities items -> positiveQuantities (addMedicineUpdate medicine items).
Proof.
  unfold positiveQuantities, addMedicineUpdate. intros Hpos.
  destruct (find _ items) as [existing|].
  - apply List.Forall_map. eapply Forall_impl; [exact Hpos|].
    intros m Hm. simpl in *. destruct (Z.eqb (id m) (id medicine)); simpl; lia.
  - apply Forall_app. split; [exact Hpos|]. by repeat constructor.
Qed.

Lemma updateQuantity_positive (i qty : Z) (st : OrderPage) :
  positiveQuantities (cart st) -> positiveQuantities (cart (updateQuantity i qty st)).
Proof.
  unfold positiveQuantities. intros Hpos.
  destruct (Z.ltb_spec qty 1) as [Hlt | Hge].
  - rewrite updateQuantity_remove by done.
    apply Forall_forall. intros m Hm. apply list_elem_of_filter in Hm as [_ Hm].
    revert m Hm. by apply Forall_forall.
  - rewrite updateQuantity_set by done.
    apply List.Forall_map. eapply Forall_impl; [exact Hpos|].
    intros m Hm. simpl in *. destruct (Z.eqb (id m) i); simpl; lia.
Qed.

Lemma applyOp_positive (op : CartOp) (st : OrderPage) :
  positiveQuantities (cart st) -> positiveQuantities (cart (applyOp op st)).
Proof.
  destruct op as [c | i qty]; simpl.
  - rewrite addItem_cart. apply addMedicineUpdate_positive.
  - apply updateQuantity_positive.
Qed.

Lemma run_positive (ops : list CartOp) (st : OrderPage) :
  positiveQuantities (cart st) -> positiveQuantities (cart (run ops st)).
Proof.
  intros Hpos. induction ops as [|op ops IH] using rev_ind; [exact Hpos|].
  rewrite run_snoc. by apply applyOp_positive.
Qed.

(** C3: setting a quantity below one removes the row of that identifier
    and keeps the other rows in order; setting a quantity [qty] of at
    least one keeps every row in its place with its identifier, name and
    price, makes [qty] the quantity of the row of that identifier and
    leaves the quantity of every other row as it was; when no row has
    the identifier the state is returned unchanged; and after any
    sequence of add and set-quantity operations on an empty cart every
    row has a quantity of at least one. *)
Theorem updateQuantity_contract (i qty : Z) (st : OrderPage) :
  (qty < 1 ->
     cart (updateQuantity i qty st) = filter (fun m => id m <> i) (cart st)
     /\ i ∉ map id (cart (updateQuantity i qty st)))
  /\ (1 <= qty ->
       length (cart (updateQuantity i qty st)) = length (cart st)
       /\ map id (cart (updateQuantity i qty st)) = map id (cart st)
       /\ (forall k m, cart st !! k = Some m ->
             exists m', cart (updateQuantity i qty st) !! k = Some m'
                        /\ id m' = id m /\ name m' = name m /\ price m' = price m
                        /\ quantity m' = (if decide (id m = i) then qty else quantity m))
       /\ (forall m', m' ∈ cart (updateQuantity i qty st) ->
             id m' = i -> quantity m' = qty))
  /\ (i ∉ map id (cart st) -> updateQuantity i qty st = st)
  /\ (forall ops, cart st = [] ->
       forall m, m ∈ cart (run ops st) -> 0 < quantity m).
Proof.
  split; [|split; [|split]].
  - intros Hlt. rewrite updateQuantity_remove by done. split; [reflexivity|].
    rewrite list_elem_of_In, in_map_iff. intros (m & Hid & Hm).
    apply list_elem_of_In, list_elem_of_filter in Hm as [Hne _]. done.
  - intros Hge. rewrite updateQuantity_set by done.
    split; [apply length_map|]. split; [|split].
    + rewrite map_map. apply map_ext. intros m.
      by destruct (Z.eqb (id m) i).
    + intros k m Hk.
      exists (if Z.eqb (id m) i then withQuantity m qty else m). split.
      * change (map ?f ?l) with (f <$> l). by rewrite list_lookup_fmap, Hk.
      * destruct (Z.eqb_spec (id m) i); destruct (decide (id m = i)); done.
    + intros m' Hm' Hid.
      rewrite list_elem_of_In, in_map_iff in Hm'. destruct Hm' as (m & <- & _).
      destruct (Z.eqb_spec (id m) i) as [_ | Hne]; [reflexivity | done].
  - apply updateQuantity_absent.
  - intros ops Hempty m Hm.
    assert (positiveQuantities (cart (run ops st))) as Hpos.
    { apply run_positive. rewrite Hempty. constructor. }
    unfold positiveQuantities in Hpos. rewrite Forall_forall in Hpos.
    specialize (Hpos m Hm). lia.
Qed.

Lemma updateQuantity_contract_witness :
  let paracetamol := mkMedicine 7 "Paracetamol" 20 2 in
  let cetirizine := mkMedicine 9 "Cetirizine" 35 1 in
  let st := setCart [paracetamol; cetirizine] initial in
  cart (updateQuantity 7 0 st) = [mkMedicine 9 "Cetirizine" 35 1]
  /\ cart (updateQuantity 9 5 st)
     = [mkMedicine 7 "Paracetamol" 20 2; mkMedicine 9 "Cetirizine" 35 5]
  /\ (forall m', m' ∈ cart (updateQuantity 9 5 st) -> id m' = 9 -> quantity m' = 5)
  /\ updateQuantity 4 0 st = st
  /\ (forall m,
        m ∈ cart (run [AddItem (ViaButton paracetamol); SetQuantity 7 0;
                       AddItem (ViaButton cetirizine)] initial) ->
        0 < quantity m).
Proof.
  intros paracetamol cetirizine st.
  split; [reflexivity|]. split; [reflexivity|]. split; [|split].
  - apply (proj1 (proj2 (updateQuantity_contract 9 5 st))). lia.
  - apply (updateQuantity_contract 4 0 st). vm_compute. intros Hin.
    repeat (apply elem_of_cons in Hin as [Hin | Hin]; [discriminate|]).
    inversion Hin.
  - apply (updateQuantity_contract 0 0 initial). reflexivity.
Defined.

End CartFacts.

(** ** Checkout *)

Module CheckoutFacts.
Import JS Order.

Lemma cart_toast (k : ToastKind) (msg : string) (st : OrderPage) :
  cart (toast k msg st) = cart st.
Proof. reflexivity. Qed.

Lemma handlePlaceOrder_cart (st : OrderPage) :
  cart (handlePlaceOrder st) = cart st.
Proof.
  unfold handlePlaceOrder.
  destruct (Nat.eqb _ 0); [reflexivity|].
  destruct (negb (truthy (address st)) || negb (truthy (phone st))); reflexivity.
Qed.

Lemma not_blank_truthy (s : string) : Text.isBlank s = false -> truthy s = true.
Proof. by destruct s. Qed.

(** C4, as the page behaves: placing an order with an empty cart is
    refused with the error [Cart is empty]; with rows in the cart and no
    address or no phone it is refused with the one error
    [Fill all fields], whichever of the two is missing; in both cases
    the dialog stays as it was, and the cart is never changed.  With
    rows, and an address and a phone that are not blank, the
    confirmation dialog opens. *)
Theorem handlePlaceOrder_validation (st : OrderPage) :
  (cart st = [] -> handlePlaceOrder st = toast ToastError "Cart is empty" st)
  /\ (cart st <> [] -> address st = "" \/ phone st = "" ->
       handlePlaceOrder st = toast ToastError "Fill all fields" st)
  /\ (cart st <> [] ->
      Text.isBlank (address st) = false -> Text.isBlank (phone st) = false ->
       handlePlaceOrder st = setShowDialog true st)
  /\ cart (handlePlaceOrder st) = cart st.
Proof.
  unfold handlePlaceOrder. split; [|split; [|split]].
  - intros ->. reflexivity.
  - intros Hrows Hmissing. destruct (cart st) as [|m items]; [done|]. simpl.
    destruct Hmissing as [-> | ->]; simpl; [reflexivity|].
    by rewrite orb_true_r.
  - intros Hrows Haddr Hphone. destruct (cart st) as [|m items]; [done|]. simpl.
    apply not_blank_truthy in Haddr, Hphone. by rewrite Haddr, Hphone.
  - apply handlePlaceOrder_cart.
Qed.

Lemma handlePlaceOrder_validation_witness :
  let row := mkMedicine 7 "Paracetamol" 20 1 in
  handlePlaceOrder initial = toast ToastError "Cart is empty" initial
  /\ handlePlaceOrder (setAddress "12 MG Road" (setCart [row] initial))
     = toast ToastError "Fill all fields" (setAddress "12 MG Road" (setCart [row] initial))
  /\ handlePlaceOrder
       (setPhone "9876543210" (setAddress "12 MG Road" (setCart [row] initial)))
     = setShowDialog true
         (setPhone "9876543210" (setAddress "12 MG Road" (setCart [row] initial))).
Proof.
  intros row. split; [|split].
  - exact (proj1 (handlePlaceOrder_validation initial) eq_refl).
  - apply (handlePlaceOrder_validation (setAddress "12 MG Road" (setCart [row] initial))).
    + discriminate.
    + right. reflexivity.
  - apply (handlePlaceOrder_validation
             (setPhone "9876543210" (setAddress "12 MG Road" (setCart [row] initial))));
      [discriminate | reflexivity | reflexivity].
Defined.

(** C4 as the specification words it fails: with a row in the cart, an
    address and no phone, the error shown is [Fill all fields]; it does
    not name the phone, and the very same error is shown when it is the
    address that is missing. *)
Lemma missing_phone_not_named :
  let row := mkMedicine 7 "Paracetamol" 20 1 in
  let noPhone := setAddress "12 MG Road" (setCart [row] initial) in
  let noAddress := setPhone "9876543210" (setCart [row] initial) in
  phone noPhone = ""
  /\ toasts (handlePlaceOrder noPhone) = [mkToast ToastError "Fill all fields"]
  /\ namesField "phone" "Fill all fields" = false
  /\ toasts (handlePlaceOrder noAddress) = toasts (handlePlaceOrder noPhone).
Proof. repeat split. Qed.

(** C5, as the page behaves: the cart is emptied exactly when a user is
    signed in and the response to the order request decodes to a body
    whose [success] field is truthy; a refused validation, a missing
    user, a rejected request, a body that is not JSON and a body without
    a truthy [success] all leave the cart exactly as it was.  The status
    of the response is not consulted. *)
Theorem confirmOrder_cart (user : bool) (st : OrderPage) :
  cart (handlePlaceOrder st) = cart st
  /\ (forall r, cart (confirmOrder false r st) = cart st)
  /\ (forall e, cart (confirmOrder user (Api.Rejected e) st) = cart st)
  /\ (forall ok status,
        cart (confirmOrder user (Api.Response ok status None) st) = cart st)
  /\ (forall ok status body, Api.success body = false ->
        cart (confirmOrder user (Api.Response ok status (Some body)) st) = cart st)
  /\ (forall ok status body, Api.success body = true ->
        cart (confirmOrder true (Api.Response ok status (Some body)) st) = [])
  /\ (forall r, cart (confirmOrder user r st) = []
               \/ cart (confirmOrder user r st) = cart st).
Proof.
  split; [apply handlePlaceOrder_cart|].
  split; [reflexivity|].
  split; [intros e; by destruct user|].
  split; [intros ok status; by destruct user|].
  split.
  { intros ok status body Hfail. unfold confirmOrder.
    destruct user; [|reflexivity].
    cbn [negb Api.createOrder Api.fetchJson]. by rewrite Hfail. }
  split.
  { intros ok status body Hok. unfold confirmOrder.
    cbn [negb Api.createOrder Api.fetchJson]. by rewrite Hok. }
  intros r. unfold confirmOrder. destruct user; simpl; [|by right].
  destruct (Api.createOrder r) as [body | e]; [|by right].
  destruct (Api.success body); [by left | by right].
Qed.

Lemma confirmOrder_cart_witness :
  let row := mkMedicine 7 "Paracetamol" 20 1 in
  let st := setShowDialog true
              (setPhone "9876543210" (setAddress "12 MG Road" (setCart [row] initial))) in
  let refused := Api.mkBody false (Some "Out of stock") None None None in
  let accepted := Api.mkBody true None None None None in
  cart (confirmOrder true (Api.Response true 200 (Some refused)) st) = [row]
  /\ cart (confirmOrder true (Api.Response true 200 (Some accepted)) st) = [].
Proof.
  intros row st refused accepted. split.
  - exact (proj1 (proj2 (proj2 (proj2 (proj2 (confirmOrder_cart true st)))))
                 true 200 refused eq_refl).
  - exact (proj1 (proj2 (proj2 (proj2 (proj2 (proj2 (confirmOrder_cart true st))))))
                 true 200 accepted eq_refl).
Defined.

(** C5 as the specification words it fails: a response with an error
    status whose body reports success empties the cart. *)
Lemma http_error_status_clears_cart :
  let row := mkMedicine 7 "Paracetamol" 20 1 in
  let st := setShowDialog true
              (setPhone "9876543210" (setAddress "12 MG Road" (setCart [row] initial))) in
  let r := Api.Response false 500 (Some (Api.mkBody true None None None None)) in
  cart st = [row]
  /\ Api.apiRequest r = Api.Failed (Api.Error "HTTP error! status: 500")
  /\ cart (confirmOrder true r st) = [].
Proof. repeat split. Qed.

End CheckoutFacts.

(** ** The authentication context *)

Module AuthFacts.
Import JS Auth.

Lemma isAuthenticated_user (st : AuthState) :
  isAuthenticated st = false <-> user st = None.
Proof. unfold isAuthenticated. destruct (user st); split; congruence. Qed.

Section WithJSON.
Context `{JSON}.

(** A failed login changes nothing. *)
Lemma login_false_unchanged (email password : string) (ty : UserType) (st : AuthState) :
  fst (login email password ty st) = false -> snd (login email password ty st) = st.
Proof.
  unfold login.
  destruct (type_is "patient" ty).
  - destruct (find _ DEMO_PATIENTS); simpl; [discriminate | reflexivity].
  - destruct (type_is "doctor" ty); [|reflexivity].
    destruct (find _ DEMO_DOCTORS); simpl; [discriminate | reflexivity].
Qed.

Lemma wrong_password_no_match (password : string) (ty : UserType) (st : AuthState) :
  password <> "patient123" ->
  login "patient@demo.com" password ty st = (false, st).
Proof.
  intros Hwrong. unfold login.
  assert (String.eqb "patient123" password = false) as Hpw
    by (apply String.eqb_neq; congruence).
  destruct (type_is "patient" ty).
  - unfold DEMO_PATIENTS. cbn [find p_email p_password].
    rewrite Hpw, andb_false_r.
    change (String.eqb "sarah@demo.com" "patient@demo.com") with false.
    reflexivity.
  - destruct (type_is "doctor" ty); reflexivity.
Qed.

(** C7: signing in as patient with patient@demo.com and patient123
    succeeds from every state: the call returns true, the session is
    authenticated, the user's type is patient and both storage keys are
    written; with any other password for that address the call returns
    false and the state, storage included, is the one before the call.
    More generally every call that returns false leaves the state as it
    was. *)
Theorem login_demo_patient (st : AuthState) :
  (let result := login "patient@demo.com" "patient123" (Some "patient") st in
   fst result = true
   /\ isAuthenticated (snd result) = true
   /\ (type <$> user (snd result)) = Some (Some "patient")
   /\ userType (snd result) = Some "patient"
   /\ is_Some (localStorage (snd result) !! "user")
   /\ localStorage (snd result) !! "userType" = Some "patient")
  /\ (forall password ty, password <> "patient123" ->
        login "patient@demo.com" password ty st = (false, st))
  /\ (forall email password ty,
        fst (login email password ty st) = false ->
        snd (login email password ty st) = st).
Proof.
  split; [|split].
  - set (userData := mkUser "1" "John Doe" "patient@demo.com" (Some "patient")
                            None (Some "+91 98765 43210")).
    assert (login "patient@demo.com" "patient123" (Some "patient") st
            = (true,
               setItem "userType" "patient"
                 (setItem "user" (JSON_stringify userData)
                    (setUserType (Some "patient") (setUser (Some userData) st)))))
      as Hlogin by reflexivity.
    cbv zeta. rewrite Hlogin.
    unfold setItem, setUserType, setUser, isAuthenticated.
    cbn [fst snd user userType localStorage fmap option_fmap option_map type userData].
    split; [reflexivity|]. split; [reflexivity|]. split; [reflexivity|].
    split; [reflexivity|]. split.
    + rewrite lookup_insert_ne by discriminate. rewrite lookup_insert_eq. eauto.
    + apply lookup_insert_eq.
  - intros password ty. apply wrong_password_no_match.
  - intros email password ty. apply login_false_unchanged.
Qed.

(** C10: when one of the two storage keys is missing, restoring ends
    normally with no user, no user type and the loading flag cleared; so
    a restored user implies that both keys were present. *)
Theorem restore_needs_both_keys (storage : gmap string string) :
  (storage !! "user" = None \/ storage !! "userType" = None ->
     restore (initial storage) = Normal (mkAuthState None None false storage)
     /\ isAuthenticated (state_of (restore (initial storage))) = false)
  /\ (forall u, user (state_of (restore (initial storage))) = Some u ->
        is_Some (storage !! "user") /\ is_Some (storage !! "userType")).
Proof.
  unfold restore, getItem. simpl. split.
  - intros [-> | Hty].
    + done.
    + rewrite Hty. by destruct (storage !! "user").
  - intros u. destruct (storage !! "user") as [su|]; [|discriminate].
    destruct (storage !! "userType") as [sty|]; [|discriminate]. eauto.
Qed.

(** C6, at the input on which the code departs from it: with both keys
    stored and a user entry that [JSON.parse] rejects, the restore effect
    ends by the exception, before the loading flag is cleared. *)
Theorem restore_corrupt_throws (storage : gmap string string)
    (savedUser savedType : string) :
  storage !! "user" = Some savedUser ->
  storage !! "userType" = Some savedType ->
  savedUser <> "" -> savedType <> "" ->
  JSON_parse savedUser = SyntaxError ->
  restore (initial storage) = Throw "SyntaxError" (initial storage)
  /\ threw (restore (initial storage)) = true
  /\ isLoading (state_of (restore (initial storage))) = true.
Proof.
  intros Hu Ht Hsu Hst Hparse. unfold restore, getItem. simpl.
  rewrite Hu, Ht, Hparse.
  destruct savedUser; [done|]. destruct savedType; [done|]. done.
Qed.

(** When the stored user parses, restoring installs it and clears the
    loading flag. *)
Lemma restore_parsed (storage : gmap string string)
    (savedUser savedType : string) (u : option User) :
  storage !! "user" = Some savedUser ->
  storage !! "userType" = Some savedType ->
  savedUser <> "" -> savedType <> "" ->
  JSON_parse savedUser = Parsed u ->
  restore (initial storage) = Normal (mkAuthState u (Some savedType) false storage).
Proof.
  intros Hu Ht Hsu Hst Hparse. unfold restore, getItem. simpl.
  rewrite Hu, Ht, Hparse.
  destruct savedUser; [done|]. destruct savedType; [done|]. done.
Qed.

End WithJSON.

(** C8: from every state, after logout nobody is authenticated and both
    storage keys are gone, every other key being kept; logging out of the
    logged-out state returns that same state. *)
Theorem logout_clears_session (st : AuthState) :
  isAuthenticated (logout st) = false
  /\ user (logout st) = None
  /\ userType (logout st) = None
  /\ localStorage (logout st) !! "user" = None
  /\ localStorage (logout st) !! "userType" = None
  /\ (forall key, key <> "user" -> key <> "userType" ->
        localStorage (logout st) !! key = localStorage st !! key)
  /\ logout (logout st) = logout st.
Proof.
  unfold logout, removeItem, setUserType, setUser, isAuthenticated. simpl.
  repeat split.
  - rewrite lookup_delete_ne by discriminate. apply lookup_delete_eq.
  - apply lookup_delete_eq.
  - intros key Hu Ht. by rewrite !lookup_delete_ne.
  - f_equal. apply map_eq. intros key.
    rewrite !lookup_delete. by repeat case_decide.
Qed.

(** With the reference codec: a page reload after a successful login
    restores the session that login stored. *)
Example login_then_reload :
  let signedIn :=
    snd (login (H := ReferenceCodec.codec) "patient@demo.com" "patient123"
               (Some "patient") (initial ∅)) in
  restore (H := ReferenceCodec.codec) (initial (localStorage signedIn))
  = Normal (setIsLoading false signedIn).
Proof. vm_compute. reflexivity. Qed.

(** And a reload after logout finds nothing to restore. *)
Example logout_then_reload :
  let signedIn :=
    snd (login (H := ReferenceCodec.codec) "doctor@demo.com" "doctor123"
               (Some "doctor") (initial ∅)) in
  restore (H := ReferenceCodec.codec) (initial (localStorage (logout signedIn)))
  = Normal (mkAuthState None None false ∅).
Proof. vm_compute. reflexivity. Qed.

Lemma login_demo_patient_witness :
  login (H := ReferenceCodec.codec) "patient@demo.com" "patient124" (Some "patient")
        (initial ∅)
  = (false, initial ∅).
Proof.
  apply (login_demo_patient (H := ReferenceCodec.codec) (initial ∅)).
  discriminate.
Defined.

Lemma restore_needs_both_keys_witness :
  restore (H := ReferenceCodec.codec) (initial {[ "userType" := "patient" ]})
  = Normal (mkAuthState None None false {[ "userType" := "patient" ]}).
Proof.
  apply (restore_needs_both_keys (H := ReferenceCodec.codec) {[ "userType" := "patient" ]}).
  left. reflexivity.
Defined.

Lemma restore_corrupt_throws_witness :
  let storage : gmap string string :=
    <[ "user" := "{bad" ]> {[ "userType" := "patient" ]} in
  restore (H := ReferenceCodec.codec) (initial storage)
  = Throw "SyntaxError" (initial storage).
Proof.
  intros storage.
  apply (restore_corrupt_throws (H := ReferenceCodec.codec) storage "{bad" "patient");
    try reflexivity; discriminate.
Defined.

Lemma logout_clears_session_witness :
  let storage : gmap string string :=
    <[ "theme" := "dark" ]> (<[ "user" := "{}" ]> {[ "userType" := "patient" ]}) in
  localStorage (logout (initial storage)) !! "theme" = Some "dark".
Proof.
  intros storage.
  rewrite (proj1 (proj2 (proj2 (proj2 (proj2 (proj2
             (logout_clears_session (initial storage))))))) "theme")
    by discriminate.
  reflexivity.
Defined.

End AuthFacts.

(** ** The URL-parameter effect *)

Module EffectFacts.
Import JS Order CartOps.

(** The effect either leaves the cart alone or makes one add call. *)
Lemma addMedicineEffect_cart `{ParamCodec}
    (addMedicineParam : option string) (user : bool) (st : OrderPage) :
  cart (addMedicineEffect addMedicineParam user st) = cart st
  \/ exists medicine,
       cart (addMedicineEffect addMedicineParam user st)
       = cart (addItem (ViaUrlParam medicine) st).
Proof.
  unfold addMedicineEffect.
  destruct addMedicineParam as [param|]; [|by left].
  destruct (truthy param && user && negb (hasAddedMedicine st)); [|by left].
  destruct (parseMedicine param) as [|medicine]; [by left|].
  right. by exists medicine.
Qed.

(** Once it has run, the effect does nothing more. *)
Lemma addMedicineEffect_once `{ParamCodec}
    (addMedicineParam : option string) (user : bool) (st : OrderPage) :
  hasAddedMedicine st = true ->
  addMedicineEffect addMedicineParam user st = st.
Proof.
  intros Hdone. unfold addMedicineEffect.
  destruct addMedicineParam as [param|]; [|reflexivity].
  by rewrite Hdone, andb_false_r.
Qed.

End EffectFacts.

(** ** Notifications *)

Module NotificationFacts.
Import JS Consultations.

(** The wrapped request fails exactly on a rejected fetch, on a response
    that is not ok, and on a body that is not JSON. *)
Lemma apiRequest_failed (r : Api.FetchResult) :
  (exists e, Api.apiRequest r = Api.Failed e)
  <-> (exists e, r = Api.Rejected e)
      \/ (exists status json, r = Api.Response false status json)
      \/ (exists status, r = Api.Response true status None).
Proof.
  split.
  - intros [e He]. destruct r as [e' | ok status json].
    + left. by exists e'.
    + right. destruct ok.
      * right. exists status. destruct json; [discriminate | reflexivity].
      * left. by exists status, json.
  - intros [[e ->] | [(status & json & ->) | [status ->]]]; simpl; eauto.
Qed.

Lemma loadConsultations_notifications (user : option Auth.User)
    (r : Api.FetchResult) (st : Page) :
  notifications (loadConsultations user r st) = notifications st
  /\ unreadCount (loadConsultations user r st) = unreadCount st.
Proof.
  unfold loadConsultations. destruct user; [|done].
  by destruct (Api.getUserConsultations r).
Qed.

(** C9: when the notification request of a poll tick fails, the list of
    notifications and the unread count after the loader, and after the
    whole tick, are those from before; and when the loader changes the
    list, the request had resolved with a body. *)
Theorem failed_poll_keeps_notifications (user : option Auth.User)
    (rn rc : Api.FetchResult) (st : Page) :
  (forall e, Api.getNotifications rn = Api.Failed e ->
     notifications (loadNotifications user rn st) = notifications st
     /\ unreadCount (loadNotifications user rn st) = unreadCount st
     /\ notifications (pollTick user rn rc st) = notifications st
     /\ unreadCount (pollTick user rn rc st) = unreadCount st)
  /\ (notifications (loadNotifications user rn st) <> notifications st ->
      exists body, Api.getNotifications rn = Api.Resolved body
                   /\ notifications (loadNotifications user rn st)
                      = default [] (Api.notifications body)).
Proof.
  split.
  - intros e Hfail.
    assert (notifications (loadNotifications user rn st) = notifications st
            /\ unreadCount (loadNotifications user rn st) = unreadCount st)
      as [Hlist Hcount].
    { unfold loadNotifications. destruct user; [|done]. by rewrite Hfail. }
    unfold pollTick.
    destruct (loadConsultations_notifications user rc (loadNotifications user rn st))
      as [-> ->].
    done.
  - unfold loadNotifications. destruct user; [|done].
    destruct (Api.getNotifications rn) as [body | e]; [|done].
    intros _. by exists body.
Qed.

Lemma failed_poll_keeps_notifications_witness :
  let alice := Auth.mkUser "1" "John Doe" "patient@demo.com" (Some "patient")
                           None (Some "+91 98765 43210") in
  let note := Api.Notification.mk "n1" "1" "consultation" "Consultation completed"
                                  "Your prescription is ready" false "2024-01-01" (Some 3) in
  let st := setUnreadCount 1 (setNotifications [note] initial) in
  let down := Api.Rejected (Api.TypeError "Failed to fetch") in
  let fresh := Api.Response true 200 (Some (Api.mkBody true None (Some []) (Some 0) None)) in
  notifications (pollTick (Some alice) down down st) = [note]
  /\ unreadCount (pollTick (Some alice) down down st) = 1
  /\ notifications (pollTick (Some alice) fresh down st) = [].
Proof.
  intros alice note st down fresh.
  destruct (proj1 (failed_poll_keeps_notifications (Some alice) down down st)
                  (Api.Error "Unable to connect to the server. Please make sure the backend is running on http://localhost:5000")
                  eq_refl)
    as (_ & _ & Hlist & Hcount).
  split; [exact Hlist|]. split; [exact Hcount|]. reflexivity.
Defined.

End NotificationFacts.

(** ** More on the authentication context *)

Module SessionFacts.
Import JS Auth.

Lemma type_is_true (s : string) (t : UserType) :
  type_is s t = true <-> t = Some s.
Proof.
  destruct t as [s'|]; simpl; [|split; discriminate].
  rewrite String.eqb_eq. split; congruence.
Qed.

Lemma find_account {A : Type} (f : A -> bool) (l : list A) :
  (exists x, find f l = Some x) <-> (exists x, In x l /\ f x = true).
Proof.
  split.
  - intros [x Hx]. exists x. by apply find_some in Hx.
  - intros (x & Hin & Hfx). destruct (find f l) as [y|] eqn:Hfind; [eauto|].
    rewrite (find_none _ _ Hfind x Hin) in Hfx. discriminate.
Qed.

Section WithJSON.
Context `{JSON}.

Lemma login_true_iff (email password : string) (ty : UserType) (st : AuthState) :
  fst (login email password ty st) = true
  <-> (ty = Some "patient"
       /\ exists p, In p DEMO_PATIENTS /\ p_email p = email /\ p_password p = password)
      \/ (ty = Some "doctor"
          /\ exists d, In d DEMO_DOCTORS /\ d_email d = email /\ d_password d = password).
Proof.
  unfold login.
  destruct (type_is "patient" ty) eqn:Hpat.
  - apply type_is_true in Hpat. subst ty.
    match goal with |- context [find ?F DEMO_PATIENTS] => set (f := F) end.
    split.
    + intros Hok. left. split; [reflexivity|].
      destruct (find f DEMO_PATIENTS) as [p|] eqn:Hfind; [|discriminate].
      apply find_some in Hfind as [Hin Hf]. exists p. split; [exact Hin|].
      subst f. simpl in Hf. apply andb_true_iff in Hf as [He Hp].
      by apply String.eqb_eq in He, Hp.
    + intros [[_ (p & Hin & He & Hp)] | [Hdoc _]]; [|discriminate].
      destruct (proj2 (find_account f DEMO_PATIENTS)) as [q ->]; [|reflexivity].
      exists p. split; [exact Hin|]. subst f. simpl.
      by rewrite He, Hp, !String.eqb_refl.
  - assert (ty <> Some "patient") as Hnp.
    { intros Heq. apply type_is_true in Heq. congruence. }
    destruct (type_is "doctor" ty) eqn:Hdoc.
    + apply type_is_true in Hdoc. subst ty.
      match goal with |- context [find ?F DEMO_DOCTORS] => set (f := F) end.
      split.
      * intros Hok. right. split; [reflexivity|].
        destruct (find f DEMO_DOCTORS) as [d|] eqn:Hfind; [|discriminate].
        apply find_some in Hfind as [Hin Hf]. exists d. split; [exact Hin|].
        subst f. simpl in Hf. apply andb_true_iff in Hf as [He Hp].
        by apply String.eqb_eq in He, Hp.
      * intros [[Hpat' _] | [_ (d & Hin & He & Hp)]]; [discriminate|].
        destruct (proj2 (find_account f DEMO_DOCTORS)) as [q ->]; [|reflexivity].
        exists d. split; [exact Hin|]. subst f. simpl.
        by rewrite He, Hp, !String.eqb_refl.
    + split; [discriminate|].
      intros [[Heq _] | [Heq _]]; [done|].
      apply type_is_true in Heq. congruence.
Qed.

Lemma login_true_state (email password : string) (ty : UserType) (st : AuthState) :
  fst (login email password ty st) = true ->
  exists u role,
    ty = Some role
    /\ user (snd (login email password ty st)) = Some u
    /\ Auth.email u = email
    /\ type u = Some role
    /\ userType (snd (login email password ty st)) = Some role
    /\ isLoading (snd (login email password ty st)) = isLoading st
    /\ localStorage (snd (login email password ty st))
       = <["userType" := role]> (<["user" := JSON_stringify u]> (localStorage st)).
Proof.
  unfold login.
  destruct (type_is "patient" ty) eqn:Hpat.
  - apply type_is_true in Hpat. subst ty.
    match goal with |- context [find ?F DEMO_PATIENTS] => set (f := F) end.
    destruct (find f DEMO_PATIENTS) as [p|] eqn:Hfind; [|discriminate].
    intros _. apply find_some in Hfind as [_ Hf]. subst f. simpl in Hf.
    apply andb_true_iff in Hf as [He _]. apply String.eqb_eq in He.
    eexists _, "patient". repeat split. exact He.
  - destruct (type_is "doctor" ty) eqn:Hdoc; [|discriminate].
    apply type_is_true in Hdoc. subst ty.
    match goal with |- context [find ?F DEMO_DOCTORS] => set (f := F) end.
    destruct (find f DEMO_DOCTORS) as [d|] eqn:Hfind; [|discriminate].
    intros _. apply find_some in Hfind as [_ Hf]. subst f. simpl in Hf.
    apply andb_true_iff in Hf as [He _]. apply String.eqb_eq in He.
    eexists _, "doctor". repeat split. exact He.
Qed.

(** X1: A login succeeds exactly when the requested role is patient or doctor
    and the roster of that role has an entry with the given address and
    password: credentials of one role do not open the other. *)
Theorem login_succeeds_iff (email password : string) (ty : UserType) (st : AuthState) :
  fst (login email password ty st) = true
  <-> (ty = Some "patient"
       /\ exists p, In p DEMO_PATIENTS /\ p_email p = email /\ p_password p = password)
      \/ (ty = Some "doctor"
          /\ exists d, In d DEMO_DOCTORS /\ d_email d = email /\ d_password d = password).
Proof. apply login_true_iff. Qed.

(** X2: After a successful login the user in the session carries the address
    that was entered and the requested role, the role is also the
    session's user type, and storage differs from before in exactly the
    two keys: the serialised user and the role. *)
Theorem login_success_state (email password : string) (ty : UserType) (st : AuthState) :
  fst (login email password ty st) = true ->
  exists u role,
    ty = Some role
    /\ user (snd (login email password ty st)) = Some u
    /\ Auth.email u = email
    /\ type u = Some role
    /\ userType (snd (login email password ty st)) = Some role
    /\ isLoading (snd (login email password ty st)) = isLoading st
    /\ localStorage (snd (login email password ty st))
       = <["userType" := role]> (<["user" := JSON_stringify u]> (localStorage st)).
Proof. apply login_true_state. Qed.

(** X3: The restore effect only reads storage; it ends by an exception
    exactly when both keys hold non-empty strings and the stored user is
    rejected by [JSON.parse]; and whenever it ends normally the loading
    flag is cleared. *)
Theorem restore_outcome (st : AuthState) :
  localStorage (state_of (restore st)) = localStorage st
  /\ (threw (restore st) = true
      <-> exists savedUser savedType,
            localStorage st !! "user" = Some savedUser
            /\ localStorage st !! "userType" = Some savedType
            /\ savedUser <> "" /\ savedType <> ""
            /\ JSON_parse savedUser = SyntaxError)
  /\ (threw (restore st) = false -> isLoading (state_of (restore st)) = false).
Proof.
  unfold restore, getItem.
  destruct (localStorage st !! "user") as [su|] eqn:Hu;
    [|split; [done|]; split; [|done]; split; [done|];
      by intros (? & ? & ? & _)].
  destruct (localStorage st !! "userType") as [sty|] eqn:Ht;
    [|split; [done|]; split; [|done]; split; [done|];
      by intros (? & ? & _ & ? & _)].
  destruct su as [|c su]; simpl.
  { split; [done|]. split; [|done]. split; [done|].
    intros (? & ? & [= <-] & _ & ? & _). done. }
  destruct sty as [|c' sty]; simpl.
  { split; [done|]. split; [|done]. split; [done|].
    intros (? & ? & _ & [= <-] & _ & ? & _). done. }
  destruct (JSON_parse (String c su)) as [|u] eqn:Hparse; simpl.
  - split; [done|]. split; [|done]. split; [|done].
    intros _. by exists (String c su), (String c' sty).
  - split; [done|]. split; [|done]. split; [done|].
    intros (? & ? & [= <-] & _ & _ & _ & Hbad). congruence.
Qed.

(** X4: A reload after a successful login restores the session the login
    left, for every codec that reads back what it wrote for that user. *)
Theorem reload_after_login (email password : string) (ty : UserType) (st : AuthState) :
  fst (login email password ty st) = true ->
  (forall u, user (snd (login email password ty st)) = Some u ->
     JSON_stringify u <> "" /\ JSON_parse (JSON_stringify u) = Parsed (Some u)) ->
  restore (initial (localStorage (snd (login email password ty st))))
  = Normal (setIsLoading false (snd (login email password ty st))).
Proof.
  intros Hok Hcodec.
  destruct (login_true_state email password ty st Hok)
    as (u & role & Hty & Hu & _ & Hrole & Hut & _ & Hls).
  destruct (Hcodec u Hu) as [Hne Hparse].
  destruct (snd (login email password ty st)) as [u' ut' l' ls'].
  simpl in Hu, Hut, Hls. subst u' ut' ls'.
  unfold restore, getItem, initial, setIsLoading. simpl.
  rewrite lookup_insert_ne by discriminate.
  rewrite !lookup_insert_eq, Hparse.
  destruct (JSON_stringify u); [done|].
  assert (role <> "") as Hrne.
  { intros ->. unfold login in Hok. rewrite Hty in Hok. simpl in Hok. discriminate. }
  destruct role; [done|]. reflexivity.
Qed.

(** X5: A reload after logout finds no session, whatever the state before the
    logout and whatever the codec. *)
Theorem reload_after_logout (st : AuthState) :
  restore (initial (localStorage (logout st)))
  = Normal (mkAuthState None None false (localStorage (logout st))).
Proof.
  unfold restore, getItem, initial, logout, removeItem. simpl.
  rewrite lookup_delete_ne by discriminate.
  by rewrite lookup_delete_eq.
Qed.

End WithJSON.

Lemma login_success_state_witness :
  exists u role,
    Some "doctor" = Some role
    /\ user (snd (login (H := ReferenceCodec.codec) "drpriya@demo.com" "demo123"
                        (Some "doctor") (initial ∅))) = Some u
    /\ Auth.email u = "drpriya@demo.com"
    /\ type u = Some role
    /\ userType (snd (login (H := ReferenceCodec.codec) "drpriya@demo.com" "demo123"
                            (Some "doctor") (initial ∅))) = Some role
    /\ isLoading (snd (login (H := ReferenceCodec.codec) "drpriya@demo.com" "demo123"
                             (Some "doctor") (initial ∅))) = isLoading (initial ∅)
    /\ localStorage (snd (login (H := ReferenceCodec.codec) "drpriya@demo.com" "demo123"
                                (Some "doctor") (initial ∅)))
       = <["userType" := role]>
           (<["user" := JSON_stringify (JSON := ReferenceCodec.codec) u]>
              (localStorage (initial ∅))).
Proof.
  exact (login_success_state (H := ReferenceCodec.codec)
           "drpriya@demo.com" "demo123" (Some "doctor") (initial ∅) eq_refl).
Defined.

Lemma reload_after_login_witness :
  restore (H := ReferenceCodec.codec)
    (initial (localStorage (snd (login (H := ReferenceCodec.codec)
                                   "sarah@demo.com" "demo123" (Some "patient")
                                   (initial ∅)))))
  = Normal (setIsLoading false
              (snd (login (H := ReferenceCodec.codec)
                      "sarah@demo.com" "demo123" (Some "patient") (initial ∅)))).
Proof.
  apply (reload_after_login (H := ReferenceCodec.codec)
           "sarah@demo.com" "demo123" (Some "patient") (initial ∅) eq_refl).
  intros u [= <-]. split; [discriminate | reflexivity].
Defined.

End SessionFacts.

(** ** More on the order page *)

Module OrderFacts.
Import JS Order CartOps.

Lemma map_id_filter_NoDup (P : Medicine -> Prop) `{forall m, Decision (P m)}
    (items : list Medicine) :
  NoDup (map id items) -> NoDup (map id (filter P items)).
Proof.
  induction items as [|m items IH]; [done|]. simpl.
  intros Hnd. apply NoDup_cons in Hnd as [Hnot Hnd].
  rewrite filter_cons. destruct (decide (P m)); [|by apply IH].
  simpl. apply NoDup_cons. split; [|by apply IH].
  intros Hin. apply Hnot.
  rewrite list_elem_of_In, in_map_iff in Hin. destruct Hin as (r & Hid & Hr).
  apply list_elem_of_In, list_elem_of_filter in Hr as [_ Hr].
  rewrite <- Hid, list_elem_of_In. apply in_map. by apply list_elem_of_In.
Qed.

Lemma applyOp_NoDup (op : CartOp) (st : OrderPage) :
  NoDup (map id (cart st)) -> NoDup (map id (cart (applyOp op st))).
Proof.
  intros Hnd. destruct op as [c | i qty]; simpl.
  - rewrite CartFacts.addItem_cart.
    destruct (decide (id (medicineOf c) ∈ map id (cart st))) as [Hin | Hnot].
    + rewrite CartFacts.addMedicineUpdate_existing by done.
      by rewrite CartFacts.map_id_bump.
    + rewrite CartFacts.addMedicineUpdate_new by done.
      rewrite map_app. simpl. apply NoDup_app. split; [done|]. split.
      * intros i Hi Hi'. apply list_elem_of_singleton in Hi' as ->. done.
      * apply NoDup_singleton.
  - unfold updateQuantity. destruct (Z.ltb qty 1); simpl.
    + by apply map_id_filter_NoDup.
    + rewrite map_map.
      erewrite map_ext; [exact Hnd|].
      intros m. simpl. by destruct (Z.eqb (id m) i).
Qed.

(** X6: Identifiers stay unique under every operation of the cart: if no two
    rows share an identifier, no sequence of add and set-quantity
    operations makes two rows share one. *)
Theorem unique_ids_preserved (ops : list CartOp) (st : OrderPage) :
  NoDup (map id (cart st)) -> NoDup (map id (cart (run ops st))).
Proof.
  intros Hnd. induction ops as [|op ops IH] using rev_ind; [exact Hnd|].
  rewrite CartFacts.run_snoc. by apply applyOp_NoDup.
Qed.

Lemma unique_ids_preserved_witness :
  let paracetamol := mkMedicine 7 "Paracetamol" 20 0 in
  let cetirizine := mkMedicine 9 "Cetirizine" 35 0 in
  NoDup (map id (cart (run [AddItem (ViaButton paracetamol); SetQuantity 7 0;
                            AddItem (ViaButton cetirizine);
                            AddItem (ViaUrlParam paracetamol); SetQuantity 9 4]
                           initial))).
Proof.
  intros paracetamol cetirizine.
  apply (unique_ids_preserved _ initial). constructor.
Defined.

(** X7: What an add costs: adding a medicine whose identifier is new makes
    the total the total from before plus the price it carries times
    one, in binary64 numbers; adding one whose identifier is already in
    the cart leaves the name and the price of every row as they were,
    whatever name and price the added object carries, and adds one to
    the quantity of the rows with that identifier and to no other. *)
Theorem total_after_add (c : AddCall) (st : OrderPage) :
  (id (medicineOf c) ∉ map id (cart st) ->
     total (addItem c st) = (total st + price (medicineOf c) * 1)%float)
  /\ (id (medicineOf c) ∈ map id (cart st) ->
      map name (cart (addItem c st)) = map name (cart st)
      /\ map price (cart (addItem c st)) = map price (cart st)
      /\ (forall k r, cart st !! k = Some r ->
            exists r', cart (addItem c st) !! k = Some r'
                       /\ quantity r'
                          = (if decide (id r = id (medicineOf c))
                             then quantity r + 1 else quantity r))).
Proof.
  split.
  - intros Hnot. unfold total.
    rewrite CartFacts.addItem_cart, CartFacts.addMedicineUpdate_new by done.
    rewrite fold_left_app. reflexivity.
  - intros Hin.
    rewrite CartFacts.addItem_cart, CartFacts.addMedicineUpdate_existing by done.
    split; [|split].
    + rewrite map_map. apply map_ext. intros m. unfold bump.
      by destruct (Z.eqb (id m) (id (medicineOf c))).
    + rewrite map_map. apply map_ext. intros m. unfold bump.
      by destruct (Z.eqb (id m) (id (medicineOf c))).
    + intros k r Hk. exists (bump (id (medicineOf c)) r). split.
      * change (map ?f ?l) with (f <$> l). by rewrite list_lookup_fmap, Hk.
      * unfold bump.
        destruct (Z.eqb_spec (id r) (id (medicineOf c)));
          destruct (decide (id r = id (medicineOf c))); done.
Qed.

Lemma total_after_add_witness :
  let row := mkMedicine 7 "Paracetamol" 20.5 2 in
  let offer := mkMedicine 7 "Paracetamol 650" 45 0 in
  let other := mkMedicine 9 "Cetirizine" 35.25 0 in
  let st := setCart [row] initial in
  total st = 41%float
  /\ total (addItem (ViaButton other) st) = 76.25%float
  /\ cart (addItem (ViaButton offer) st) = [mkMedicine 7 "Paracetamol" 20.5 3]
  /\ map price (cart (addItem (ViaButton offer) st)) = map price (cart st).
Proof.
  intros row offer other st. split; [reflexivity|]. split; [|split; [reflexivity|]].
  - rewrite (proj1 (total_after_add (ViaButton other) st)); [reflexivity|].
    intros Hin. apply list_elem_of_singleton in Hin. discriminate.
  - apply (proj2 (total_after_add (ViaButton offer) st)). left.
Defined.

(** X8: The plus and minus buttons: setting a quantity of at least one and
    then another quantity for the same identifier is the same as setting
    the second one alone; and when the second one is the quantity the rows
    of that identifier had to begin with, the two steps return the very
    state from before. *)
Theorem updateQuantity_twice (i q1 q2 : Z) (st : OrderPage) :
  1 <= q1 ->
  updateQuantity i q2 (updateQuantity i q1 st) = updateQuantity i q2 st
  /\ ((forall r, r ∈ cart st -> id r = i -> quantity r = q2) -> 1 <= q2 ->
      updateQuantity i q2 (updateQuantity i q1 st) = st).
Proof.
  intros Hq1.
  assert (updateQuantity i q2 (updateQuantity i q1 st) = updateQuantity i q2 st) as Htwice.
  { unfold updateQuantity at 2. destruct (Z.ltb_spec q1 1); [lia|].
    unfold updateQuantity. destruct (Z.ltb q2 1); simpl; unfold setCart; simpl; f_equal.
    - induction (cart st) as [|m items IH]; [done|]. simpl.
      rewrite !filter_cons.
      destruct (Z.eqb_spec (id m) i) as [Heq | Hne]; simpl.
      + destruct (decide (id m <> i)); [done | exact IH].
      + destruct (decide (id m <> i)); [by rewrite IH | done].
    - rewrite map_map. apply map_ext. intros m.
      destruct (Z.eqb_spec (id m) i) as [Heq | Hne]; simpl.
      + by rewrite Heq, Z.eqb_refl.
      + by destruct (Z.eqb_spec (id m) i). }
  split; [exact Htwice|].
  intros Hsame Hq2. rewrite Htwice. unfold updateQuantity.
  destruct (Z.ltb_spec q2 1); [lia|].
  assert (map (fun m => if Z.eqb (id m) i then withQuantity m q2 else m) (cart st)
          = cart st) as ->; [|apply CartFacts.setCart_same].
  induction (cart st) as [|m items IH]; [done|]. simpl.
  rewrite IH by (intros r Hr; apply Hsame; by right).
  destruct (Z.eqb_spec (id m) i) as [Heq | Hne]; [|done].
  f_equal. rewrite <- (Hsame m); [by destruct m | by left | done].
Qed.

Lemma updateQuantity_twice_witness :
  let row := mkMedicine 7 "Paracetamol" 20 2 in
  let other := mkMedicine 9 "Cetirizine" 35 1 in
  let st := setCart [row; other] initial in
  updateQuantity 7 2 (updateQuantity 7 3 st) = st.
Proof.
  intros row other st.
  assert (1 <= 3) as Hq1 by lia.
  apply (proj2 (updateQuantity_twice 7 3 2 st Hq1)); [|lia].
  intros r Hr Hid.
  apply elem_of_cons in Hr as [-> | Hr]; [reflexivity|].
  apply list_elem_of_singleton in Hr as ->. discriminate.
Defined.

End OrderFacts.

(** ** The checkout flow and the URL-parameter effect *)

Module CheckoutFlowFacts.
Import JS Order CartOps.

(** X9: A complete checkout: with rows in the cart, an address and a phone,
    placing the order opens the dialog, and confirming it with a response
    whose body reports success empties the cart, closes the dialog, shows
    the success message and goes to the consultations page; placing an
    order again right away is refused because the cart is empty. *)
Theorem checkout_flow (ok : bool) (status : Z) (body : Api.Body) (st : OrderPage) :
  cart st <> [] -> address st <> "" -> phone st <> "" ->
  Api.success body = true ->
  let placed := handlePlaceOrder st in
  let confirmed := confirmOrder true (Api.Response ok status (Some body)) placed in
  showDialog placed = true
  /\ toasts placed = toasts st
  /\ cart confirmed = []
  /\ showDialog confirmed = false
  /\ toasts confirmed = toasts st ++ [mkToast ToastSuccess "Order placed successfully!"]
  /\ navigations confirmed = navigations st ++ ["/consultations"]
  /\ handlePlaceOrder confirmed = toast ToastError "Cart is empty" confirmed.
Proof.
  intros Hrows Haddr Hphone Hok placed confirmed.
  assert (placed = setShowDialog true st) as Hplaced.
  { subst placed. unfold handlePlaceOrder.
    destruct (cart st) as [|m items]; [done|]. simpl.
    destruct (address st); [done|]. destruct (phone st); [done|]. reflexivity. }
  assert (confirmed = navigate "/consultations"
                        (setCart []
                           (setShowDialog false
                              (toast ToastSuccess "Order placed successfully!" placed))))
    as Hdone.
  { subst confirmed. unfold confirmOrder.
    cbn [negb Api.createOrder Api.fetchJson]. by rewrite Hok. }
  rewrite Hdone, Hplaced. repeat split.
Qed.

Lemma checkout_flow_witness :
  let row := mkMedicine 7 "Paracetamol" 20 1 in
  let st := setPhone "9876543210" (setAddress "12 MG Road" (setCart [row] initial)) in
  let body := Api.mkBody true None None None None in
  cart (confirmOrder true (Api.Response true 201 (Some body)) (handlePlaceOrder st)) = []
  /\ navigations (confirmOrder true (Api.Response true 201 (Some body))
                              (handlePlaceOrder st)) = ["/consultations"].
Proof.
  intros row st body.
  assert (cart st <> []) as Hrows by discriminate.
  assert (address st <> "") as Haddr by discriminate.
  assert (phone st <> "") as Hphone by discriminate.
  destruct (checkout_flow true 201 body st Hrows Haddr Hphone eq_refl)
    as (_ & _ & Hcart & _ & _ & Hnav & _).
  split; [exact Hcart | exact Hnav].
Defined.

Lemma toast_neq (k : ToastKind) (msg : string) (st : OrderPage) : toast k msg st <> st.
Proof.
  intros Heq. apply (f_equal (fun s => length (toasts s))) in Heq.
  simpl in Heq. rewrite length_app in Heq. simpl in Heq. lia.
Qed.

(** X10: Feedback of the confirmation: the only outcome of [confirmOrder] that
    changes nothing at all (no message, the dialog left open, the cart
    kept) is a signed-in user receiving a decodable body that does not
    report success; every other outcome shows a message. *)
Theorem confirmOrder_silent_iff (user : bool) (r : Api.FetchResult) (st : OrderPage) :
  confirmOrder user r st = st
  <-> user = true
      /\ exists body, Api.createOrder r = Api.Resolved body /\ Api.success body = false.
Proof.
  unfold confirmOrder. destruct user; simpl.
  - destruct (Api.createOrder r) as [body | e].
    + destruct (Api.success body) eqn:Hs.
      * split.
        -- intros Heq. exfalso.
           apply (f_equal (fun s => length (toasts s))) in Heq.
           simpl in Heq. rewrite length_app in Heq. simpl in Heq. lia.
        -- intros (_ & body' & [= <-] & Hs'). congruence.
      * split; [|done]. intros _. split; [done|]. by exists body.
    + split.
      * intros Heq. by apply toast_neq in Heq.
      * intros (_ & body & Hbody & _). discriminate.
  - split.
    + intros Heq. by apply toast_neq in Heq.
    + intros (Hu & _). discriminate.
Qed.

Section WithCodec.
Context `{ParamCodec}.

Lemma addMedicineEffect_flag (param : option string) (user : bool) (st : OrderPage) :
  addMedicineEffect param user st = st
  \/ hasAddedMedicine (addMedicineEffect param user st) = true.
Proof.
  unfold addMedicineEffect.
  destruct param as [p|]; [|by left].
  destruct (truthy p && user && negb (hasAddedMedicine st)); [|by left].
  right. by destruct (parseMedicine p).
Qed.

(** X11: The URL-parameter effect acts at most once: whatever the parameters
    of two runs, either the first run left the state as it was, or the
    second run does; even a first run whose parameter could not be parsed
    uses up the one chance.  So two runs add at most one row. *)
Theorem addMedicineEffect_at_most_once (p1 p2 : option string) (u1 u2 : bool)
    (st : OrderPage) :
  (addMedicineEffect p1 u1 st = st
   \/ addMedicineEffect p2 u2 (addMedicineEffect p1 u1 st) = addMedicineEffect p1 u1 st)
  /\ (length (cart (addMedicineEffect p2 u2 (addMedicineEffect p1 u1 st)))
      <= S (length (cart st)))%nat.
Proof.
  assert (forall p u s, (length (cart (addMedicineEffect p u s)) <= S (length (cart s)))%nat)
    as Hgrow.
  { intros p u s.
    destruct (EffectFacts.addMedicineEffect_cart p u s) as [-> | [m ->]]; [lia|].
    rewrite CartFacts.addItem_cart.
    destruct (decide (id (medicineOf (ViaUrlParam m)) ∈ map id (cart s))).
    - rewrite CartFacts.addMedicineUpdate_existing by done.
      rewrite length_map. lia.
    - rewrite CartFacts.addMedicineUpdate_new by done.
      rewrite length_app. simpl. lia. }
  destruct (addMedicineEffect_flag p1 u1 st) as [Hsame | Hflag].
  - split; [by left|]. rewrite Hsame. apply Hgrow.
  - rewrite (EffectFacts.addMedicineEffect_once p2 u2 _ Hflag).
    split; [by right | apply Hgrow].
Qed.

End WithCodec.

End CheckoutFlowFacts.

(** ** The request helpers *)

Module ApiFacts.
Import JS.

(** The helper over [Api.Body] is the general helper at that body type. *)
Lemma apiRequest_general (r : Api.FetchResult) :
  Http.apiRequest Api.error (Http.ofApi r) = Http.ofApiResult (Api.apiRequest r).
Proof.
  destruct r as [e | ok status [b|]]; simpl; try reflexivity; by destruct ok.
Qed.

Lemma fetchJson_general (r : Api.FetchResult) :
  Http.fetchJson (Http.ofApi r) = Http.ofApiResult (Api.fetchJson r).
Proof. by destruct r as [e | ok status [b|]]. Qed.

(** X12: The two calling conventions: a wrapped request resolves with a body
    exactly for a response that is ok and carries that JSON body, an
    unwrapped one for every response that carries it, ok or not; so
    whatever the wrapped helper resolves with, the unwrapped call
    resolves with too. *)
Theorem wrapped_and_unwrapped (r : Api.FetchResult) (b : Api.Body) :
  (Api.apiRequest r = Api.Resolved b
   <-> exists status, r = Api.Response true status (Some b))
  /\ (Api.fetchJson r = Api.Resolved b
      <-> exists ok status, r = Api.Response ok status (Some b))
  /\ (Api.apiRequest r = Api.Resolved b -> Api.fetchJson r = Api.Resolved b).
Proof.
  assert (Api.apiRequest r = Api.Resolved b
          <-> exists status, r = Api.Response true status (Some b)) as Hwrapped.
  { destruct r as [e | [] status [b'|]]; simpl; split;
      try discriminate; try (intros [? [=]]; fail).
    - intros [= ->]. by exists status.
    - by intros [? [= _ ->]]. }
  assert (Api.fetchJson r = Api.Resolved b
          <-> exists ok status, r = Api.Response ok status (Some b)) as Hraw.
  { destruct r as [e | ok status [b'|]]; simpl; split;
      try discriminate; try (intros (? & ? & [=]); fail).
    - intros [= ->]. by exists ok, status.
    - by intros (? & ? & [= _ _ ->]). }
  split; [exact Hwrapped|]. split; [exact Hraw|].
  intros Hres. apply Hraw. apply Hwrapped in Hres as [status ->]. by exists true, status.
Qed.

Lemma wrapped_and_unwrapped_witness :
  let body := Api.mkBody true None None None None in
  Api.fetchJson (Api.Response true 200 (Some body)) = Api.Resolved body.
Proof.
  intros body.
  apply (proj2 (proj2 (wrapped_and_unwrapped (Api.Response true 200 (Some body)) body))).
  reflexivity.
Defined.

(** The helper with its console line agrees with the general helper on
    every response whose body is not [null]. *)
Lemma apiRequest_value {B : Type} (error : B -> option string) (r : Http.FetchResult B) :
  snd (Request.apiRequest error (Request.ofHttp r))
  = Request.ofHttpResult (Http.apiRequest error r).
Proof.
  destruct r as [e | ok status [b|]]; simpl; try reflexivity; by destruct ok.
Qed.

Lemma rethrow_not_failed_to_fetch (e : Api.Exception) :
  Api.rethrow e <> Api.TypeError "Failed to fetch".
Proof.
  destruct e as [m | m |]; simpl; try discriminate.
  destruct (String.eqb_spec m "Failed to fetch"); [discriminate | congruence].
Qed.

(** X13: Error reporting of the wrapped helper.  The browser's own
    [Failed to fetch] error never reaches a caller: it is replaced by
    the error about the unreachable server, and that is the one case in
    which the helper writes to the console.  A response that is not ok
    fails: with the [error] text of its body when the body is a JSON
    value with a non-empty [error] text, with the status-derived text
    when it is a JSON value without one, with [Request failed] when the
    body is not JSON, and with the TypeError of reading a field of
    [null] when the body is the JSON value [null].  A response that is
    ok resolves with its JSON value, [null] included, and fails with a
    SyntaxError when its body is not JSON. *)
Theorem apiRequest_errors {B : Type} (error : B -> option string)
    (r : Http.FetchResult (Request.Json B)) :
  (forall e, snd (Request.apiRequest error r) = Http.Failed e ->
     e <> Api.TypeError "Failed to fetch")
  /\ (r = Http.Rejected (Api.TypeError "Failed to fetch") ->
      Request.apiRequest error r
      = (["Backend server is not running. Please start the backend server."],
         Http.Failed (Api.Error "Unable to connect to the server. Please make sure the backend is running on http://localhost:5000")))
  /\ (r <> Http.Rejected (Api.TypeError "Failed to fetch") ->
      fst (Request.apiRequest error r) = [])
  /\ (forall status b msg,
        r = Http.Response false status (Some (Request.JsonValue b)) ->
        error b = Some msg -> msg <> "" ->
        snd (Request.apiRequest error r) = Http.Failed (Api.Error msg))
  /\ (forall status b,
        r = Http.Response false status (Some (Request.JsonValue b)) ->
        error b = None \/ error b = Some "" ->
        snd (Request.apiRequest error r)
        = Http.Failed (Api.Error ("HTTP error! status: " +:+ pretty status)))
  /\ (forall status,
        r = Http.Response false status None ->
        snd (Request.apiRequest error r) = Http.Failed (Api.Error "Request failed"))
  /\ (forall status,
        r = Http.Response false status (Some Request.JsonNull) ->
        snd (Request.apiRequest error r) = Http.Failed (Request.nullRead "error"))
  /\ (forall status j,
        r = Http.Response true status (Some j) ->
        snd (Request.apiRequest error r) = Http.Resolved j)
  /\ (forall status,
        r = Http.Response true status None ->
        snd (Request.apiRequest error r) = Http.Failed Api.JsonSyntaxError).
Proof.
  split; [|split; [|split; [|split; [|split; [|split; [|split; [|split]]]]]]].
  - intros e He Hbad. subst e.
    destruct r as [e | [] status [[|b]|]]; simpl in He; try discriminate;
      injection He as He; by apply rethrow_not_failed_to_fetch in He.
  - intros ->. reflexivity.
  - intros Hne. destruct r as [e | [] status [[|b]|]]; try reflexivity.
    simpl. destruct e as [m | m |]; try reflexivity. simpl.
    destruct (String.eqb_spec m "Failed to fetch"); [congruence | reflexivity].
  - intros status b msg -> Hb Hmsg. simpl. rewrite Hb.
    destruct msg; [done | reflexivity].
  - intros status b -> [Hb | Hb]; simpl; by rewrite Hb.
  - by intros status ->.
  - by intros status ->.
  - by intros status j ->.
  - by intros status ->.
Qed.

Lemma apiRequest_errors_witness :
  Request.apiRequest (B := Api.Body) Api.error
    (Http.Response false 404
       (Some (Request.JsonValue (Api.mkBody false (Some "User not found") None None None))))
  = ([], Http.Failed (Api.Error "User not found"))
  /\ snd (Request.apiRequest (B := Api.Body) Api.error (Http.Response false 502 None))
     = Http.Failed (Api.Error "Request failed").
Proof.
  split; [reflexivity|].
  exact (proj1 (proj2 (proj2 (proj2 (proj2 (proj2
           (apiRequest_errors Api.error (Http.Response false 502 None)))))))
           502 eq_refl).
Defined.

End ApiFacts.

(** ** The login pages *)

Module LoginPageFacts.
Import JS Auth LoginPages.

Section WithJSON.
Context `{JSON}.


End WithJSON.


End LoginPageFacts.

(** ** The prescriptions page *)

Module PrescriptionFacts.
Import JS Prescriptions.

Lemma console_lines (log : list string) (st : Page) :
  fold_left (fun s line => console_error line s) log st
  = mkPage (uploadedFile st) (medicineReminders st) (prescriptionList st)
           (isLoading st) (isAnalyzing st) (ocrResult st) (extractedText st)
           (toasts st) (console st ++ log).
Proof.
  revert st. induction log as [|line log IH]; intros st; simpl.
  - rewrite app_nil_r. by destruct st.
  - rewrite IH. simpl. by rewrite <- app_assoc.
Qed.

(** The page after a load by a signed-in user, case by case. *)
Lemma loadPrescriptions_cases (r : Http.FetchResult (Request.Json ListBody))
    (st : Page) :
  loadPrescriptions true r st
  = match Request.apiRequest error r with
    | (log, Http.Failed _) =>
        mkPage (uploadedFile st) (medicineReminders st) [] false
               (isAnalyzing st) (ocrResult st) (extractedText st) (toasts st)
               (console st ++ log ++ ["Error fetching prescriptions:"])
    | (log, Http.Resolved (Request.JsonValue b)) =>
        mkPage (uploadedFile st) (medicineReminders st)
               (default [] (prescriptions b)) false
               (isAnalyzing st) (ocrResult st) (extractedText st) (toasts st)
               (console st ++ log)
    | (log, Http.Resolved Request.JsonNull) =>
        mkPage (uploadedFile st) (medicineReminders st) (prescriptionList st) false
               (isAnalyzing st) (ocrResult st) (extractedText st)
               (toasts st ++ [mkToast ToastError "Failed to load prescriptions"])
               ((console st ++ log) ++ ["Failed to load prescriptions:"])
    end.
Proof.
  unfold loadPrescriptions, getUserPrescriptions. simpl.
  destruct (Request.apiRequest error r) as [log [[|b] | e]];
    rewrite console_lines; reflexivity.
Qed.

(** X15: A failed prescriptions request is never reported to the user: the
    API call logs it and answers with an empty listing, so the page
    empties its list and shows no message.  The error message of the
    page appears in one case only, an ok response whose body is the JSON
    value [null]; the list is then kept.  An ok response with any other
    JSON value replaces the list and shows nothing.  In every case
    loading is over afterwards; without a user nothing happens. *)
Theorem loadPrescriptions_failure (r : Http.FetchResult (Request.Json ListBody))
    (st : Page) :
  isLoading (loadPrescriptions true r st) = false
  /\ (forall e, snd (Request.apiRequest error r) = Http.Failed e ->
        prescriptionList (loadPrescriptions true r st) = []
        /\ toasts (loadPrescriptions true r st) = toasts st
        /\ console (loadPrescriptions true r st)
           = console st ++ fst (Request.apiRequest error r)
                        ++ ["Error fetching prescriptions:"])
  /\ (forall status, r = Http.Response true status (Some Request.JsonNull) ->
        prescriptionList (loadPrescriptions true r st) = prescriptionList st
        /\ toasts (loadPrescriptions true r st)
           = toasts st ++ [mkToast ToastError "Failed to load prescriptions"]
        /\ console (loadPrescriptions true r st)
           = console st ++ ["Failed to load prescriptions:"])
  /\ (forall status b, r = Http.Response true status (Some (Request.JsonValue b)) ->
        prescriptionList (loadPrescriptions true r st) = default [] (prescriptions b)
        /\ toasts (loadPrescriptions true r st) = toasts st
        /\ console (loadPrescriptions true r st) = console st)
  /\ loadPrescriptions false r st = st.
Proof.
  rewrite loadPrescriptions_cases. split; [|split; [|split; [|split]]].
  - by destruct (Request.apiRequest error r) as [log [[|b] | e]].
  - intros e He. destruct (Request.apiRequest error r) as [log [j | e']];
      [discriminate|]. done.
  - intros status ->. simpl. by rewrite app_nil_r.
  - intros status b ->. simpl. by rewrite app_nil_r.
  - reflexivity.
Qed.

Lemma loadPrescriptions_failure_witness :
  let old := Prescription.mk 1 "1" "Dr. Rao" ["Paracetamol (500mg)"] "2024-01-01" "active" in
  let st := setIsLoading false (setPrescriptions [old] initial) in
  let down := Http.Rejected (Api.TypeError "Failed to fetch") in
  prescriptionList (loadPrescriptions true down st) = []
  /\ toasts (loadPrescriptions true down st) = []
  /\ console (loadPrescriptions true down st)
     = ["Backend server is not running. Please start the backend server.";
        "Error fetching prescriptions:"].
Proof.
  intros old st down.
  exact (proj1 (proj2 (loadPrescriptions_failure down st))
           (Api.Error "Unable to connect to the server. Please make sure the backend is running on http://localhost:5000")
           eq_refl).
Defined.

(** X16: An upload always starts afresh: whatever analysis was on the page
    before, afterwards the page holds the new file, is no longer
    analysing, has shown exactly two messages more, and holds an analysis
    result exactly when the request resolved with a body that reports
    success and carries prescription data, that data being the result. *)
Theorem handleFileUpload_outcome (imageData : string) (r : Http.FetchResult OcrBody)
    (st : Page) :
  let st' := handleFileUpload imageData r st in
  uploadedFile st' = Some imageData
  /\ isAnalyzing st' = false
  /\ length (toasts st') = S (S (length (toasts st)))
  /\ (forall data, ocrResult st' = Some data
        <-> exists body, analyzePrescriptionImage r = Http.Resolved body
                         /\ success body = true /\ prescriptionData body = Some data).
Proof.
  intros st'. subst st'. unfold handleFileUpload.
  destruct (analyzePrescriptionImage r) as [body | e].
  - destruct (success body) eqn:Hs; destruct (prescriptionData body) as [data'|] eqn:Hd.
    + destruct (nonEmpty (OCR.medicines data'));
        [|destruct (nonEmpty (OCR.rawMedicines data'))]; simpl;
        (split; [done|]); (split; [done|]);
        (split; [rewrite !length_app; simpl; lia|]);
        intros data; (split; [intros [= <-]; by exists body
                             | intros (b & [= <-] & _ & Hd'); congruence]).
    + simpl. split; [done|]. split; [done|].
      split; [rewrite !length_app; simpl; lia|].
      intros data. split; [done|]. intros (b & [= <-] & _ & Hd'). congruence.
    + simpl. split; [done|]. split; [done|].
      split; [rewrite !length_app; simpl; lia|].
      intros data. split; [done|]. intros (b & [= <-] & Hs' & _). congruence.
    + simpl. split; [done|]. split; [done|].
      split; [rewrite !length_app; simpl; lia|].
      intros data. split; [done|]. intros (b & [= <-] & Hs' & _). congruence.
  - simpl. split; [done|]. split; [done|].
    split; [rewrite !length_app; simpl; lia|].
    intros data. split; [done|]. by intros (b & Hb & _).
Qed.

(** X17: The Save button and the message of the analysis agree: when an upload
    leaves an analysis result on the page, the Save button is disabled
    exactly when the message shown last is the one saying that no
    medicine could be identified. *)
Theorem save_button_matches_message (imageData : string)
    (r : Http.FetchResult OcrBody) (st : Page) (data : OCR.t) :
  ocrResult (handleFileUpload imageData r st) = Some data ->
  (saveDisabled data = true
   <-> last (toasts (handleFileUpload imageData r st))
       = Some (mkToast ToastInfo
                 "Could not identify medicines clearly. Please check the extracted text.")).
Proof.
  unfold handleFileUpload, saveDisabled.
  destruct (analyzePrescriptionImage r) as [body | e]; [|discriminate].
  destruct (success body); destruct (prescriptionData body) as [data'|];
    try discriminate.
  destruct (nonEmpty (OCR.medicines data')) eqn:Hm;
    [|destruct (nonEmpty (OCR.rawMedicines data')) eqn:Hr]; simpl;
    intros [= <-]; rewrite Hm; try rewrite Hr; simpl; rewrite !last_snoc;
    split; congruence.
Qed.

Lemma save_button_matches_message_witness :
  let data := OCR.mk (Some []) "Dr. Rao" "John Doe" "2024-01-01" "low" None in
  let body := mkOcrBody true (Some data) (Some "illegible") None in
  saveDisabled data = true.
Proof.
  intros data body.
  apply (save_button_matches_message "data:image/png;base64,AAAA"
           (Http.Response true 200 (Some body)) initial data); reflexivity.
Defined.

(** X18: What Save sends: the list of medicines in the request comes from
    [medicines] whenever that field is present, even when it is an empty
    list; so the request carries no medicine exactly when [medicines] is
    an empty list, or is missing together with an empty or missing
    [rawMedicines].  In particular, with an empty [medicines] list and
    names in [rawMedicines] the Save button is enabled and the request it
    sends is empty. *)
Theorem saved_medicines (userId : string) (ocr : OCR.t) :
  (req_medicines (saveRequest userId ocr) = []
   <-> OCR.medicines ocr = Some []
       \/ (OCR.medicines ocr = None
           /\ (OCR.rawMedicines ocr = None \/ OCR.rawMedicines ocr = Some [])))
  /\ (OCR.medicines ocr = Some [] -> nonEmpty (OCR.rawMedicines ocr) = true ->
      saveDisabled ocr = false /\ req_medicines (saveRequest userId ocr) = [])
  /\ length (req_medicines (saveRequest userId ocr))
     = match OCR.medicines ocr with
       | Some ms => length ms
       | None => length (default [] (OCR.rawMedicines ocr))
       end.
Proof.
  unfold saveRequest, medicineNames, saveDisabled. simpl.
  destruct (OCR.medicines ocr) as [[|m ms]|]; simpl.
  - split; [split; [by left | done]|]. split; [|done].
    intros _ ->. done.
  - split; [split; [done|]|].
    + intros [[=] | [[=] _]].
    + split; [done|]. by rewrite length_map.
  - destruct (OCR.rawMedicines ocr) as [[|x xs]|]; simpl.
    + split; [split; [intros _; right; split; [done | by right] | done]|]. done.
    + split; [split; [done|]|].
      * intros [[=] | [_ [[=] | [=]]]].
      * split; [done|]. by rewrite length_map.
    + split; [split; [intros _; right; split; [done | by left] | done]|]. done.
Qed.

Lemma saved_medicines_witness :
  let ocr := OCR.mk (Some []) "" "John Doe" "2024-01-01" "medium"
                    (Some [Raw.mk "Paracetamol" (Some "500mg")]) in
  saveDisabled ocr = false
  /\ saveRequest "1" ocr = mkSaveRequest "1" "Unknown Doctor" [].
Proof.
  intros ocr. split; [|reflexivity].
  apply (proj1 (proj2 (saved_medicines "1" ocr))); reflexivity.
Defined.

(** X19: Saving: for a signed-in user with an analysis on the page, every
    response to the save request that carries a JSON body, whatever its
    status, counts as saved: the success message is shown and the file
    and the analysis are cleared, and the reload that follows adds a
    message of its own only when it is answered with the JSON value
    [null]; when the request fails, the file and the analysis stay for
    another try and the list is not reloaded.  Without a user or without
    an analysis nothing happens. *)
Theorem savePrescription_outcome (user : bool) (rs : Http.FetchResult unit)
    (rl : Http.FetchResult (Request.Json ListBody)) (st : Page) :
  (user = false \/ ocrResult st = None -> savePrescription user rs rl st = st)
  /\ (user = true -> ocrResult st <> None ->
      forall ok status, rs = Http.Response ok status (Some tt) ->
        uploadedFile (savePrescription user rs rl st) = None
        /\ ocrResult (savePrescription user rs rl st) = None
        /\ toasts (savePrescription user rs rl st)
           = toasts st ++ mkToast ToastSuccess "Prescription saved!"
               :: match rl with
                  | Http.Response true _ (Some Request.JsonNull) =>
                      [mkToast ToastError "Failed to load prescriptions"]
                  | _ => []
                  end)
  /\ (user = true -> ocrResult st <> None ->
      forall e, createPrescription rs = Http.Failed e ->
        savePrescription user rs rl st
        = toast ToastError "Failed to save prescription" st).
Proof.
  unfold savePrescription. split; [|split].
  - intros [-> | ->]; [done | by destruct user].
  - intros -> Hocr ok status ->. destruct (ocrResult st); [|done]. simpl.
    split; [done|]. split; [done|].
    rewrite loadPrescriptions_cases.
    destruct rl as [e | [] status' [[|b]|]]; simpl; try reflexivity;
      by rewrite <- app_assoc.
  - intros -> Hocr e He. destruct (ocrResult st); [|done]. by rewrite He.
Qed.

Lemma savePrescription_outcome_witness :
  let ocr := OCR.mk (Some [Extracted.mk "Paracetamol" "500mg" "twice a day" "5 days"])
                    "Dr. Rao" "John Doe" "2024-01-01" "high" None in
  let st := setOcrResult (Some ocr) (setUploadedFile (Some "data:image/png;base64,AAAA")
                                       (setIsLoading false initial)) in
  let empty := Http.Response true 200
                 (Some (Request.JsonValue (mkListBody (Some []) None))) in
  ocrResult (savePrescription true (Http.Response false 500 (Some tt)) empty st) = None
  /\ formatMedicine (Extracted.mk "Paracetamol" "500mg" "twice a day" "5 days")
     = "Paracetamol (500mg) - twice a day".
Proof.
  intros ocr st empty. split; [|reflexivity].
  assert (ocrResult st <> None) as Hocr by discriminate.
  apply (proj1 (proj2 (savePrescription_outcome true
           (Http.Response false 500 (Some tt)) empty st)) eq_refl Hocr false 500 eq_refl).
Defined.

Lemma handle_reminders (ev : Event) (st : Page) :
  medicineReminders st = [] -> medicineReminders (handle ev st) = [].
Proof.
  intros Hnone. destruct ev as [user r | imageData r | user rs rl | i | i]; simpl.
  - destruct user; [|done]. rewrite loadPrescriptions_cases.
    by destruct (Request.apiRequest error r) as [log [[|b] | e]].
  - unfold handleFileUpload.
    destruct (analyzePrescriptionImage r) as [body | e]; [|done].
    destruct (success body); destruct (prescriptionData body) as [data|]; try done.
    destruct (nonEmpty (OCR.medicines data)); [done|].
    by destruct (nonEmpty (OCR.rawMedicines data)).
  - unfold savePrescription. destruct user; [|done].
    destruct (ocrResult st); [|done].
    destruct (createPrescription rs); [|done]. simpl.
    rewrite loadPrescriptions_cases.
    by destruct (Request.apiRequest error rl) as [log [[|b] | e]].
  - by rewrite Hnone.
  - by rewrite Hnone.
Qed.

Lemma run_events_snoc (events : list Event) (ev : Event) (st : Page) :
  run (events ++ [ev]) st = handle ev (run events st).
Proof. unfold run. by rewrite fold_left_app. Qed.

Lemma setMedicineReminders_same (st : Page) :
  setMedicineReminders (medicineReminders st) st = st.
Proof. by destruct st. Qed.

(** X20: The page never has a reminder: the list starts as the empty
    [reminders] array and no handler adds to it, so after any sequence
    of loads, uploads, saves and marks the list is empty, and marking a
    reminder as taken or as skipped changes nothing on the page but the
    messages shown. *)
Theorem reminders_stay_empty (events : list Event) (reminderId : Z) :
  medicineReminders (run events initial) = []
  /\ markAsTaken reminderId (run events initial)
     = toast ToastSuccess "Marked as taken!" (run events initial)
  /\ markAsSkipped reminderId (run events initial)
     = toast ToastInfo "Marked as skipped" (run events initial).
Proof.
  assert (medicineReminders (run events initial) = []) as Hnone.
  { induction events as [|ev events IH] using rev_ind; [reflexivity|].
    rewrite run_events_snoc. by apply handle_reminders. }
  split; [exact Hnone|].
  unfold markAsTaken, markAsSkipped. rewrite Hnone. simpl. rewrite <- Hnone.
  by rewrite setMedicineReminders_same.
Qed.

End PrescriptionFacts.

(** ** The consultations page *)

Module ConsultationFacts.
Import JS Consultations ConsultationActions.

Lemma loadNotifications_other (user : option Auth.User) (r : Api.FetchResult) (st : Page) :
  consultations (loadNotifications user r st) = consultations st
  /\ isLoading (loadNotifications user r st) = isLoading st
  /\ toasts (loadNotifications user r st) = toasts st
  /\ showNotifications (loadNotifications user r st) = showNotifications st.
Proof.
  unfold loadNotifications. destruct user; [|done].
  by destruct (Api.getNotifications r).
Qed.

Lemma loadNotifications_failed (user : option Auth.User) (r : Api.FetchResult)
    (e : Api.Exception) (st : Page) :
  Api.apiRequest r = Api.Failed e ->
  notifications (loadNotifications user r st) = notifications st
  /\ unreadCount (loadNotifications user r st) = unreadCount st.
Proof.
  intros He. unfold loadNotifications, Api.getNotifications.
  destruct user; [|done]. by rewrite He.
Qed.





(** X22: Mark all as read: nothing happens without a user; when the mark
    request fails, the notifications and the unread count stay as they
    were and an error is shown; when it succeeds, the success message is
    shown whether or not the reload that follows succeeds, and after a
    failed reload the page still shows the old notifications and count. *)
Theorem handleMarkAllRead_outcome (user : option Auth.User)
    (rm rn : Api.FetchResult) (st : Page) :
  (user = None -> handleMarkAllRead user rm rn st = st)
  /\ (user <> None -> forall e, Api.apiRequest rm = Api.Failed e ->
        notifications (handleMarkAllRead user rm rn st) = notifications st
        /\ unreadCount (handleMarkAllRead user rm rn st) = unreadCount st
        /\ toasts (handleMarkAllRead user rm rn st)
           = toasts st ++ [mkToast ToastError "Failed to mark notifications as read"])
  /\ (user <> None -> forall b, Api.apiRequest rm = Api.Resolved b ->
        toasts (handleMarkAllRead user rm rn st)
        = toasts st ++ [mkToast ToastSuccess "All notifications marked as read"]
        /\ (forall e, Api.apiRequest rn = Api.Failed e ->
              notifications (handleMarkAllRead user rm rn st) = notifications st
              /\ unreadCount (handleMarkAllRead user rm rn st) = unreadCount st)).
Proof.
  unfold handleMarkAllRead, markAllNotificationsRead.
  split; [by intros ->|]. split.
  - intros Hu e He. destruct user as [u|]; [|done]. by rewrite He.
  - intros Hu b Hb. destruct user as [u|]; [|done]. rewrite Hb.
    unfold toast. cbn [toasts notifications unreadCount]. split.
    + by destruct (loadNotifications_other (Some u) rn st) as (_ & _ & -> & _).
    + intros e He. by apply (loadNotifications_failed (Some u) rn e).
Qed.

Lemma handleMarkAllRead_outcome_witness :
  let alice := Auth.mkUser "1" "John Doe" "patient@demo.com" (Some "patient")
                           None (Some "+91 98765 43210") in
  let note := Api.Notification.mk "n1" "1" "consultation" "Consultation completed"
                                  "Your prescription is ready" false "2024-01-01" (Some 3) in
  let st := setUnreadCount 1 (setNotifications [note] initial) in
  let acknowledged := Api.Response true 200 (Some (Api.mkBody true None None None None)) in
  let down := Api.Rejected (Api.TypeError "Failed to fetch") in
  toasts (handleMarkAllRead (Some alice) acknowledged down st)
  = [mkToast ToastSuccess "All notifications marked as read"]
  /\ unreadCount (handleMarkAllRead (Some alice) acknowledged down st) = 1.
Proof.
  intros alice note st acknowledged down.
  assert (Some alice <> None) as Hu by discriminate.
  destruct (proj2 (proj2 (handleMarkAllRead_outcome (Some alice) acknowledged down st))
              Hu (Api.mkBody true None None None None) eq_refl) as [Htoast Hkeep].
  split; [exact Htoast|].
  exact (proj2 (Hkeep _ eq_refl)).
Defined.

(** X23: Clicking a notification: when marking it as read fails, the
    notifications and the unread count are left as they were, whatever
    the reloads would have returned; the dropdown is closed exactly when
    the notification carries a consultation number other than zero, and
    is otherwise left as it was. *)
Theorem handleNotificationClick_outcome (notification : Api.Notification.t)
    (user : option Auth.User) (rm rn rc : Api.FetchResult) (st : Page) :
  (forall e, Api.apiRequest rm = Api.Failed e ->
     notifications (handleNotificationClick notification user rm rn rc st)
     = notifications st
     /\ unreadCount (handleNotificationClick notification user rm rn rc st)
        = unreadCount st)
  /\ showNotifications (handleNotificationClick notification user rm rn rc st)
     = (if hasConsultation notification then false else showNotifications st)
  /\ (hasConsultation notification = false ->
      consultations (handleNotificationClick notification user rm rn rc st)
      = consultations st).
Proof.
  unfold handleNotificationClick, markNotificationRead.
  split; [|split].
  - intros e He. rewrite He.
    destruct (hasConsultation notification); [|done]. simpl.
    apply (NotificationFacts.loadConsultations_notifications user rc
             (console_error "Failed to mark notification as read:" st)).
  - destruct (hasConsultation notification); [done|].
    destruct (Api.apiRequest rm); [|done].
    by destruct (loadNotifications_other user rn st) as (_ & _ & _ & ->).
  - intros ->. destruct (Api.apiRequest rm); [|done].
    by destruct (loadNotifications_other user rn st) as (-> & _).
Qed.

Lemma handleNotificationClick_outcome_witness :
  let alice := Auth.mkUser "1" "John Doe" "patient@demo.com" (Some "patient")
                           None (Some "+91 98765 43210") in
  let note := Api.Notification.mk "n1" "1" "info" "Welcome" "Hello" false
                                  "2024-01-01" (Some 0) in
  let st := setShowNotifications true (setUnreadCount 1 (setNotifications [note] initial)) in
  let down := Api.Rejected (Api.TypeError "Failed to fetch") in
  unreadCount (handleNotificationClick note (Some alice) down down down st) = 1
  /\ showNotifications (handleNotificationClick note (Some alice) down down down st) = true.
Proof.
  intros alice note st down. split.
  - exact (proj2 (proj1 (handleNotificationClick_outcome note (Some alice)
                           down down down st) _ eq_refl)).
  - reflexivity.
Defined.



End ConsultationFacts.

(** ** Redirects *)

Module RouteFacts.
Import JS Auth Routes.

(** X25: After logout no page shows its content, and each page with a
    guard sends the visitor to a login page: the home page pushes
    [/login] at once; once loading is over, the patient dashboard and the
    order, medicine-info, consultations and prescriptions pages push
    [/login] and the doctor dashboard pushes [/login/doctor]; while
    loading is not over these pages push nothing. *)
Theorem logout_redirects (st : AuthState) :
  homeRedirect (logout st) = Some "/login"
  /\ homeRedirectAlt (logout st) = Some "/login"
  /\ patientDashboardShown (logout st) = false
  /\ doctorDashboardShown (logout st) = false
  /\ loadedUserPageShown (logout st) = false
  /\ userPageShown (logout st) = false
  /\ (isLoading st = false ->
      guardedRedirect (logout st) = Some "/login"
      /\ patientDashboardRedirect (logout st) = Some "/login"
      /\ doctorDashboardRedirect (logout st) = Some "/login/doctor")
  /\ (isLoading st = true ->
      guardedRedirect (logout st) = None
      /\ patientDashboardRedirect (logout st) = None
      /\ doctorDashboardRedirect (logout st) = None).
Proof.
  unfold homeRedirect, homeRedirectAlt, patientDashboardShown, doctorDashboardShown,
    loadedUserPageShown, userPageShown, guardedRedirect, patientDashboardRedirect,
    doctorDashboardRedirect, isAuthenticated, logout. simpl.
  rewrite !andb_false_r.
  do 6 (split; [reflexivity|]). split; by intros ->.
Qed.

Lemma logout_redirects_witness :
  let st := mkAuthState (Some (mkUser "2" "Dr. Priya Sharma" "doctor@demo.com"
                                      (Some "doctor") (Some "General Physician") None))
                        (Some "doctor") false ∅ in
  doctorDashboardRedirect st = None
  /\ doctorDashboardRedirect (logout st) = Some "/login/doctor"
  /\ guardedRedirect (logout st) = Some "/login".
Proof.
  intros st. split; [reflexivity|].
  destruct (proj1 (proj2 (proj2 (proj2 (proj2 (proj2 (proj2 (logout_redirects st)))))))
              eq_refl) as (Hguard & _ & Hdoctor).
  split; [exact Hdoctor | exact Hguard].
Defined.

Section WithJSON.
Context `{JSON}.

(** X26: After a successful login the home page sends the user to the
    dashboard of the role that was asked for, and the menu is the one of
    that role. *)
Theorem login_redirects (email password : string) (ty : UserType) (st : AuthState) :
  fst (login email password ty st) = true ->
  (ty = Some "patient"
   /\ homeRedirect (snd (login email password ty st)) = Some "/patient-dashboard"
   /\ navItems (snd (login email password ty st)) = patientNavItems)
  \/ (ty = Some "doctor"
      /\ homeRedirect (snd (login email password ty st)) = Some "/doctor-dashboard"
      /\ navItems (snd (login email password ty st)) = doctorNavItems).
Proof.
  intros Hok.
  destruct (SessionFacts.login_true_state email password ty st Hok)
    as (u & role & Hty & Hu & _ & _ & Hut & _).
  assert (role = "patient" \/ role = "doctor") as Hrole.
  { apply SessionFacts.login_true_iff in Hok as [[Hp _] | [Hd _]];
      rewrite Hty in *; [left | right]; congruence. }
  unfold homeRedirect, navItems. rewrite Hu, Hut.
  destruct Hrole as [-> | ->]; [left | right]; by rewrite Hty.
Qed.

(** X27: A stored session whose role is neither patient nor doctor is
    restored as an authenticated session, which the pages treat as
    follows.  The effect of the home page pushes nothing for it; on the
    first render, before the session is restored, it pushes [/login], as
    it does for every visitor.  The patient dashboard neither redirects
    it nor shows its chat.  The doctor dashboard pushes [/login/doctor]
    and shows nothing.  The order, medicine-info, consultations and
    prescriptions pages show their content without a redirect, and the
    menu is the patient menu. *)
Theorem unknown_role_pages (storage : gmap string string)
    (savedUser savedType : string) (u : User) :
  storage !! "user" = Some savedUser ->
  storage !! "userType" = Some savedType ->
  savedUser <> "" -> savedType <> "" ->
  savedType <> "patient" -> savedType <> "doctor" ->
  JSON_parse savedUser = Parsed (Some u) ->
  homeRedirect (initial storage) = Some "/login"
  /\ exists st, restore (initial storage) = Normal st
                /\ isAuthenticated st = true
                /\ homeRedirect st = None
                /\ homeRedirectAlt st = None
                /\ patientDashboardRedirect st = None
                /\ patientDashboardShown st = false
                /\ doctorDashboardRedirect st = Some "/login/doctor"
                /\ doctorDashboardShown st = false
                /\ guardedRedirect st = None
                /\ loadedUserPageShown st = true
                /\ userPageShown st = true
                /\ navItems st = patientNavItems.
Proof.
  intros Hu Ht Hsu Hst Hnp Hnd Hparse. split; [reflexivity|].
  rewrite (AuthFacts.restore_parsed storage savedUser savedType (Some u))
    by done.
  eexists. split; [reflexivity|].
  unfold isAuthenticated, homeRedirect, homeRedirectAlt, patientDashboardRedirect,
    patientDashboardShown, doctorDashboardRedirect, doctorDashboardShown,
    guardedRedirect, loadedUserPageShown, userPageShown, isAuthenticated, navItems.
  simpl.
  assert (String.eqb savedType "patient" = false) as -> by by apply String.eqb_neq.
  assert (String.eqb savedType "doctor" = false) as -> by by apply String.eqb_neq.
  done.
Qed.

End WithJSON.

Lemma login_redirects_witness :
  homeRedirect (snd (login (H := ReferenceCodec.codec) "doctor@demo.com" "doctor123"
                           (Some "doctor") (initial ∅)))
  = Some "/doctor-dashboard".
Proof.
  destruct (login_redirects (H := ReferenceCodec.codec) "doctor@demo.com" "doctor123"
              (Some "doctor") (initial ∅) eq_refl) as [(Hty & _) | (_ & Hhome & _)].
  - discriminate Hty.
  - exact Hhome.
Defined.

Lemma unknown_role_pages_witness :
  let admin := mkUser "9" "Root" "root@demo.com" (Some "admin") None None in
  let storage : gmap string string :=
    <["user" := ReferenceCodec.stringify admin]> {[ "userType" := "admin" ]} in
  exists st, restore (H := ReferenceCodec.codec) (initial storage) = Normal st
             /\ isAuthenticated st = true
             /\ homeRedirect st = None
             /\ homeRedirectAlt st = None
             /\ patientDashboardRedirect st = None
             /\ patientDashboardShown st = false
             /\ doctorDashboardRedirect st = Some "/login/doctor"
             /\ doctorDashboardShown st = false
             /\ guardedRedirect st = None
             /\ loadedUserPageShown st = true
             /\ userPageShown st = true
             /\ navItems st = patientNavItems.
Proof.
  intros admin storage.
  apply (unknown_role_pages (H := ReferenceCodec.codec) storage
           (ReferenceCodec.stringify admin) "admin" admin);
    try reflexivity; discriminate.
Defined.

End RouteFacts.

(** ** Registration *)

Module RegisterFacts.
Import JS Text Register.

Lemma digit_not_separator (c : ascii) : isDigit c = true -> isSeparator c = false.
Proof. destruct c as [[] [] [] [] [] [] [] []]; vm_compute; congruence. Qed.

Lemma digit_not_space (c : ascii) : isDigit c = true -> isSpace c = false.
Proof. destruct c as [[] [] [] [] [] [] [] []]; vm_compute; congruence. Qed.

Lemma allDigits_strip (p : string) :
  allDigits (stripSeparators p) = onlyDigitsAndSeparators p.
Proof.
  induction p as [|c p IH]; [done|]. simpl.
  destruct (isSeparator c) eqn:Hsep; simpl.
  - by rewrite IH, orb_true_r.
  - by rewrite IH, orb_false_r.
Qed.

Lemma length_strip (p : string) :
  onlyDigitsAndSeparators p = true ->
  String.length (stripSeparators p) = digitCount p.
Proof.
  induction p as [|c p IH]; [done|]. simpl.
  intros Hok. apply andb_true_iff in Hok as [Hc Hrest].
  destruct (isSeparator c) eqn:Hsep; simpl.
  - destruct (isDigit c) eqn:Hdig.
    + apply digit_not_separator in Hdig. congruence.
    + by apply IH.
  - rewrite orb_false_r in Hc. rewrite Hc. simpl. f_equal. by apply IH.
Qed.

Lemma phone_accepted_iff (p : string) :
  phoneRegexTest (stripSeparators p) = true
  <-> onlyDigitsAndSeparators p = true /\ digitCount p = 10%nat.
Proof.
  unfold phoneRegexTest. rewrite andb_true_iff, allDigits_strip, Nat.eqb_eq.
  split.
  - intros [Hlen Hok]. split; [done|]. by rewrite <- length_strip.
  - intros [Hok Hten]. split; [|done]. by rewrite length_strip.
Qed.

Lemma blank_no_digit (p : string) : isBlank p = true -> digitCount p = 0%nat.
Proof.
  induction p as [|c p IH]; [done|]. simpl.
  intros Hb. apply andb_true_iff in Hb as [Hc Hrest].
  destruct (isDigit c) eqn:Hdig.
  - apply digit_not_space in Hdig. congruence.
  - by apply IH.
Qed.

(** X28: The registration form is accepted exactly when the two passwords are
    the same, the password has at least six characters, and the phone
    consists of digits and separators (hyphen, parentheses, white space)
    only, with exactly ten digits: a number written with a plus sign or
    with a country code in front is refused.  A form that is refused
    only shows a message: no request is made and nothing else changes. *)
Theorem registration_accepted_iff (fd : FormData) :
  (validate fd = None
   <-> password fd = confirmPassword fd
       /\ (6 <= String.length (password fd))%nat
       /\ onlyDigitsAndSeparators (phone fd) = true
       /\ digitCount (phone fd) = 10%nat)
  /\ (forall r st, formData st = fd -> validate fd <> None ->
        exists msg, handleSubmit r st = toast ToastError msg st).
Proof.
  split.
  - unfold validate.
    destruct (String.eqb_spec (password fd) (confirmPassword fd)) as [Heq | Hne]; simpl;
      [|split; [discriminate | by intros [? _]]].
    destruct (Nat.ltb_spec (String.length (password fd)) 6) as [Hlt | Hge];
      [split; [discriminate | intros (_ & ? & _); lia]|].
    destruct (isBlank (phone fd)) eqn:Hblank.
    { split; [discriminate|]. intros (_ & _ & _ & Hten).
      apply blank_no_digit in Hblank. lia. }
    destruct (phoneRegexTest (stripSeparators (phone fd))) eqn:Hre; simpl.
    + apply phone_accepted_iff in Hre as [Hok Hten]. by split.
    + split; [discriminate|]. intros (_ & _ & Hok & Hten).
      assert (phoneRegexTest (stripSeparators (phone fd)) = true) as Hre'
        by by apply phone_accepted_iff.
      congruence.
  - intros r st Hfd Hbad. unfold handleSubmit. rewrite Hfd.
    destruct (validate fd) as [msg|]; [by exists msg | done].
Qed.

Lemma registration_accepted_iff_witness :
  validate (mkFormData "Asha" "asha@example.com" "secret1" "secret1" "(987) 654-3210") = None
  /\ validate (mkFormData "Asha" "asha@example.com" "secret1" "secret1" "+91 98765 43210")
     = Some "Please enter a valid 10-digit mobile number".
Proof.
  split; [|reflexivity].
  apply (proj1 (registration_accepted_iff
                  (mkFormData "Asha" "asha@example.com" "secret1" "secret1" "(987) 654-3210"))).
  repeat split. simpl. lia.
Defined.

End RegisterFacts.

(** ** The health chat *)

Module ChatFacts.
Import JS Text Chat.

Lemma numbered_snoc2 (l : list Message.t) (a b : Message.t) :
  numbered l ->
  Message.id a = Z.of_nat (length l) + 1 ->
  Message.id b = Z.of_nat (length l) + 2 ->
  numbered (l ++ [a; b]).
Proof.
  intros Hl Ha Hb k m Hk.
  destruct (decide (k < length l)%nat) as [Hlt | Hge].
  - rewrite lookup_app_l in Hk by done. by apply Hl.
  - rewrite lookup_app_r in Hk by lia.
    destruct (k - length l)%nat as [|[|n]] eqn:Hd; simpl in Hk.
    + injection Hk as <-. rewrite Ha. lia.
    + injection Hk as <-. rewrite Hb. lia.
    + discriminate.
Qed.

Lemma handleSendMessage_messages (sentAt answeredAt : Z)
    (r : Http.FetchResult AnalysisBody) (st : Page) :
  (isBlank (inputMessage st) = true
   /\ handleSendMessage sentAt answeredAt r st = st)
  \/ (isBlank (inputMessage st) = false
      /\ exists a b,
           messages (handleSendMessage sentAt answeredAt r st) = messages st ++ [a; b]
           /\ Message.id a = Z.of_nat (length (messages st)) + 1
           /\ Message.id b = Z.of_nat (length (messages st)) + 2
           /\ Message.sender a = "user" /\ Message.message a = inputMessage st
           /\ Message.sender b = "ai"
           /\ inputMessage (handleSendMessage sentAt answeredAt r st) = ""
           /\ isTyping (handleSendMessage sentAt answeredAt r st) = false).
Proof.
  unfold handleSendMessage.
  destruct (isBlank (inputMessage st)); [by left|]. right. split; [done|].
  destruct (analyzeSymptoms r) as [body | e]; simpl;
    eexists _, _; rewrite <- app_assoc; simpl; repeat split.
Qed.

Lemma numbered_NoDup (l : list Message.t) : numbered l -> NoDup (map Message.id l).
Proof.
  intros Hl. change (map ?f ?l) with (f <$> l).
  apply NoDup_alt. intros i j x Hi Hj.
  rewrite list_lookup_fmap in Hi, Hj.
  destruct (l !! i) as [a|] eqn:Ha; [|discriminate].
  destruct (l !! j) as [b|] eqn:Hb; [|discriminate].
  simpl in Hi, Hj. injection Hi as Hi. injection Hj as Hj.
  apply Hl in Ha, Hb. lia.
Qed.

(** X29: The conversation is numbered by position: whatever texts are sent
    and however the requests end, every message carries its place in the
    list as identifier, so no two messages share one; a blank text adds
    nothing, any other text adds exactly two messages, the text sent and
    an answer, also when the request fails; and the page is never left
    in the typing state. *)
Theorem chat_numbering (welcome : string) (now : Z) (sends : list Send) :
  let st := runSends sends (initial welcome now) in
  numbered (messages st)
  /\ NoDup (map Message.id (messages st))
  /\ isTyping st = false
  /\ (forall s,
        (isBlank (typed s) = true -> messages (send s st) = messages st)
        /\ (isBlank (typed s) = false ->
            exists a b, messages (send s st) = messages st ++ [a; b]
                        /\ Message.sender a = "user" /\ Message.message a = typed s
                        /\ Message.sender b = "ai")).
Proof.
  intros st.
  assert (numbered (messages st) /\ isTyping st = false) as [Hnum Htyping].
  { subst st. induction sends as [|s sends IH] using rev_ind.
    - split; [|done]. intros [|k] m Hk; simpl in Hk; [|discriminate].
      by injection Hk as <-.
    - unfold runSends in *. rewrite fold_left_app. simpl.
      destruct IH as [IHn IHt]. unfold send.
      match goal with |- context [setInputMessage ?t ?s0] =>
        set (st0 := setInputMessage t s0) end.
      destruct (handleSendMessage_messages (sentAt s) (answeredAt s) (response s) st0)
        as [[_ ->] | (_ & a & b & -> & Ha & Hb & _ & _ & _ & _ & Ht)].
      + by split.
      + split; [|exact Ht]. by apply numbered_snoc2. }
  split; [exact Hnum|]. split; [by apply numbered_NoDup|]. split; [exact Htyping|].
  intros s. unfold send.
  destruct (handleSendMessage_messages (sentAt s) (answeredAt s) (response s)
              (setInputMessage (typed s) st))
    as [[Hb ->] | (Hb & a & b & Hm & _ & _ & Hsa & Hma & Hsb & _)]; simpl in *.
  - split; [done | congruence].
  - split; [congruence|]. intros _. by exists a, b.
Qed.

Lemma chat_numbering_witness :
  let down := Http.Rejected (Api.TypeError "Failed to fetch") in
  let st := runSends [mkSend "I have a headache" 10 11 down; mkSend "   " 20 21 down]
                     (initial "Hello!" 0) in
  map Message.id (messages st) = [1; 2; 3]
  /\ messages (send (mkSend "" 30 31 down) st) = messages st.
Proof.
  intros down st. split; [reflexivity|].
  apply (proj1 (proj2 (proj2 (proj2
           (chat_numbering "Hello!" 0
              [mkSend "I have a headache" 10 11 down; mkSend "   " 20 21 down])))
           (mkSend "" 30 31 down))).
  reflexivity.
Defined.

End ChatFacts.

(** ** The doctor login page and the home page *)

Module DoctorLoginFacts.
Import JS Auth LoginPages.

Lemma homeRedirectAlt_same (st : AuthState) :
  Routes.homeRedirectAlt st = Routes.homeRedirect st.
Proof.
  unfold Routes.homeRedirectAlt, Routes.homeRedirect, isAuthenticated.
  destruct (Auth.user st); simpl; [|done].
  destruct (userType st) as [t|]; simpl; [|done].
  destruct (String.eqb_spec t "doctor") as [-> | Hd]; [done|].
  by destruct (String.eqb t "patient").
Qed.

Section WithJSON.
Context `{JSON}.

(** X30: The demo fallback of the doctor login page is bound to the doctor
    roster: when the backend request fails, the submit signs in and goes
    to the doctor dashboard exactly when the address and password are
    those of a demo doctor, and otherwise shows the error and leaves the
    session and storage as they were; demo credentials of a patient do
    not pass. *)
Theorem doctorSubmit_fallback (email password : string)
    (r : Http.FetchResult LoginBody) (e : Api.Exception) (au : AuthState) :
  apiLogin r = Http.Failed e ->
  let result := doctorSubmit email password r initial au in
  isLoading (fst result) = false
  /\ (pushed (fst result) = ["/doctor-dashboard"]
      <-> exists d, In d DEMO_DOCTORS /\ d_email d = email /\ d_password d = password)
  /\ (pushed (fst result) <> ["/doctor-dashboard"] ->
      snd result = au
      /\ toasts (fst result) = [mkToast ToastError "Invalid email or password"])
  /\ ((exists p, In p DEMO_PATIENTS /\ p_email p = email /\ p_password p = password) ->
      pushed (fst result) = []).
Proof.
  intros Hfail result. subst result. unfold doctorSubmit. rewrite Hfail.
  pose proof (SessionFacts.login_true_iff email password (Some "doctor") au) as Hiff.
  pose proof (AuthFacts.login_false_unchanged email password (Some "doctor") au) as Hsame.
  destruct (login email password (Some "doctor") au) as [ok au'] eqn:Hlogin.
  simpl in Hiff, Hsame.
  assert (ok = true <-> exists d, In d DEMO_DOCTORS /\ d_email d = email
                                  /\ d_password d = password) as Hdoc.
  { rewrite Hiff. split.
    - intros [[[=] _] | [_ Hd]]. exact Hd.
    - intros Hd. by right. }
  destruct ok; simpl.
  - split; [done|]. split; [split; [intros _; by apply Hdoc | done]|].
    split; [done|].
    intros (p & Hp & <- & <-). exfalso.
    destruct (proj1 Hdoc eq_refl) as (d & Hd & He & Hpw).
    unfold DEMO_PATIENTS, DEMO_DOCTORS in *. simpl in Hp, Hd.
    destruct Hp as [<- | [<- | []]]; destruct Hd as [<- | [<- | []]];
      simpl in He; discriminate.
  - split; [done|]. split; [split; [discriminate|]|].
    + intros Hd. apply Hdoc in Hd. discriminate.
    + split; [|done]. intros _. by rewrite Hsame.
Qed.

End WithJSON.

Lemma doctorSubmit_fallback_witness :
  pushed (fst (doctorSubmit (H := ReferenceCodec.codec) "patient@demo.com" "patient123"
                 (Http.Response true 200 None) initial (Auth.initial ∅)))
  = [].
Proof.
  apply (doctorSubmit_fallback (H := ReferenceCodec.codec) "patient@demo.com" "patient123"
           (Http.Response true 200 None) Api.JsonSyntaxError (Auth.initial ∅) eq_refl).
  exists (mkDemoPatient "1" "John Doe" "patient@demo.com" "patient123" "+91 98765 43210").
  split; [left; reflexivity | split; reflexivity].
Defined.

End DoctorLoginFacts.
